(** * Mega2048-gas-fix: the transaction hooks, embedded and verified

    Two versions of the [useTransactions] hook live in the repository:

    - the Privy/viem hook of [useTransactions-fixed.tsx] (module [V1]):
      [getCurrentGasPrices], [estimateGas], [sendRawTransactionAndConfirm],
      [initializeGameTransaction], [playNewMoveTransaction];
    - the second version of the hook, written against wagmi, whose
      [getOptimizedGasConfig] resolves the gas limit and the fee pair in
      one call (module [V2]).

    Values are modelled as the code has them: a [bigint] is a [Z], the
    cached nonce is a JavaScript [number] holding an integer (a [Z] whose
    sum is rounded to binary64), [Hex] values and messages are strings,
    an optional argument is an [option].  What the hooks obtain from the
    outside (the node, the wallet, the [post] helper, viem's encoder) is
    an environment of oracles; each call is recorded in a trace of
    events, together with the toasts.  [console.log] output and the
    elapsed-time figures inside toast descriptions are not recorded. *)

From Stdlib Require Import ZArith List String Bool Lia DecimalString.
Import ListNotations.
Local Open Scope string_scope.
Local Open Scope list_scope.
Local Open Scope Z_scope.

(** ** Values shared by both hooks *)

Definition Hex := string.

(** A JavaScript [Error] object; only its [message] is observed. *)
Record Error : Type := mkError { message : string }.

(** The outcome of evaluating an expression that may throw. *)
Inductive Attempt (A : Type) : Type :=
| Returned (a : A)
| Threw (e : Error).
Arguments Returned {A} a.
Arguments Threw {A} e.

Definition attempt_bind {A B} (m : Attempt A) (k : A -> Attempt B) : Attempt B :=
  match m with
  | Returned a => k a
  | Threw e => Threw e
  end.

(** [try { m } catch (error) { h error }] without other effects. *)
Definition attempt_catch {A} (m : Attempt A) (h : Error -> A) : A :=
  match m with
  | Returned a => a
  | Threw e => h e
  end.

(** viem's [parseUnits]: the decimal literal [digits * 10^-scale] expressed
    in the smallest unit.  [parseEther "0.0075"] is [parseEther 75 4]. *)
Definition parseUnits (digits scale decimals : Z) : Z :=
  digits * 10 ^ (decimals - scale).
Definition parseEther (digits scale : Z) : Z := parseUnits digits scale 18.
Definition parseGwei (digits scale : Z) : Z := parseUnits digits scale 9.

(** [x || y] where [x] is a [bigint], [null] or [undefined]: [0n] is falsy. *)
Definition bigint_or (x : option Z) (y : Z) : Z :=
  match x with
  | Some v => if v =? 0 then y else v
  | None => y
  end.

(** Truthiness of an optional [bigint] argument. *)
Definition truthy (x : option Z) : bool :=
  match x with
  | Some v => negb (v =? 0)
  | None => false
  end.

(** BigInt division truncates toward zero. *)
Definition bigint_div (a b : Z) : Z := Z.quot a b.

(** The fee rule in the words of the specification: the larger of
    [baseFee * 2 + priorityFee] and [gasPrice + priorityFee], replaced by
    [priorityFee * 3] when it is not above the priority fee. *)
Definition spec_maxFee (baseFee gasPrice priorityFee : Z) : Z :=
  let maxFee := Z.max (baseFee * 2 + priorityFee) (gasPrice + priorityFee) in
  if priorityFee <? maxFee then maxFee else priorityFee * 3.

(** ** binary64 arithmetic used by the hooks

    A finite double is [m * 2^e], kept as the pair [(m, e)]. *)

Definition Double : Type := (Z * Z)%type.

(** Round-half-even of the positive fraction [n / d]. *)
Definition rne (n d : Z) : Z :=
  let q := n / d in
  let r := n mod d in
  if 2 * r <? d then q
  else if d <? 2 * r then q + 1
  else if Z.even q then q else q + 1.

(** Nearest double to the positive rational [n / d]: a 53-bit significand
    at the exponent of [n / d].  [Z.log2 (n * 2^1100 / d) - 1100] is
    [floor (log2 (n / d))] for every [n / d >= 2^-1100].  Subnormals and
    overflow are left out: the strings [formatEther] prints denote
    multiples of [10^-18], and a value beyond the largest double compares
    with [0.01] as infinity does. *)
Definition round64 (n d : Z) : Double :=
  let l := Z.log2 (n * 2 ^ 1100 / d) - 1100 in
  let e := l - 52 in
  let m := if e <? 0 then rne (n * 2 ^ (- e)) d else rne n (d * 2 ^ e) in
  (m, e).

(** [parseFloat] of the decimal string denoting [n / d] ([d > 0]): the
    nearest double, ties to even. *)
Definition parseFloat (q : Z * Z) : Double :=
  let (n, d) := q in
  if n =? 0 then (0, 0)
  else if n <? 0 then let (m, e) := round64 (- n) d in (- m, e)
  else round64 n d.

(** [x < y] on doubles. *)
Definition double_lt (x y : Double) : bool :=
  let (m1, e1) := x in
  let (m2, e2) := y in
  let e := Z.min e1 e2 in
  m1 * 2 ^ (e1 - e) <? m2 * 2 ^ (e2 - e).

(** viem's [formatEther]: the decimal string of [wei / 10^18], exactly. *)
Definition formatEther (wei : Z) : Z * Z := (wei, 10 ^ 18).

(** The literal [0.01]. *)
Definition lit_0_01 : Double := parseFloat (1, 100).

(** [a + b] on numbers that hold integers: the exact sum up to [2^53] in
    magnitude, beyond that the nearest double (still an integer). *)
Definition number_add (a b : Z) : Z :=
  let s := a + b in
  if Z.abs s <=? 2 ^ 53 then s
  else
    let e := Z.log2 (Z.abs s) - 52 in
    Z.sgn s * (rne (Z.abs s) (2 ^ e) * 2 ^ e).

(** ** The Privy/viem hook ([useTransactions-fixed.tsx]) *)

Module V1.

(** *** Data *)

Record Block : Type := mkBlock { baseFeePerGas : option Z }.

Record GasParams : Type := mkGasParams {
  maxFeePerGas : Z;
  maxPriorityFeePerGas : Z
}.

(** The object handed to [provider.signTransaction]. *)
Record TxFields : Type := mkTx {
  tx_to : Hex;
  tx_account : string;
  tx_data : Hex;
  tx_nonce : Z;
  tx_gas : Z;
  tx_maxFeePerGas : Z;
  tx_maxPriorityFeePerGas : Z
}.

(** The wallet client stored in the [walletClient] ref. *)
Record Provider : Type := mkProvider {
  signTransaction : TxFields -> Attempt Hex
}.

Record RpcError : Type := mkRpcError { rpc_message : string }.

(** The JSON body [post] resolves to. *)
Record Response : Type := mkResponse {
  error : option RpcError;
  result : Hex
}.

Record PostRequest : Type := mkPost {
  url : string;
  rpc_method : string;
  rpc_params : list Hex;
  includeCredentials : bool;
  retries : Z;
  retryDelay : Z
}.

Inductive ReceiptStatus : Type := success | reverted.

Record Receipt : Type := mkReceipt { status : ReceiptStatus }.

(** The refs of the hook: the cached account state and the wallet client. *)
Record Refs : Type := mkRefs {
  userNonce : Z;
  userBalance : Z;
  userAddress : string;
  walletClient : option Provider
}.

(** Everything outside the hook. *)
Record Env : Type := mkEnv {
  GAME_CONTRACT_ADDRESS : Hex;
  hostname : string;
  publicClient_getBlock : Attempt Block;
  publicClient_estimateGas : string -> Hex -> Hex -> Attempt Z;
  post : PostRequest -> Attempt Response;
  waitForTransactionReceipt : Hex -> Attempt Receipt;
  encodeStartGame : Hex -> list Z -> list Z -> Attempt Hex;
  encodePlay : Hex -> Z -> Z -> Attempt Hex
}.

Inductive Event : Type :=
| EvGetBlock
| EvEstimateGas (account : string) (to data : Hex)
| EvSignTransaction (tx : TxFields)
| EvPost (req : PostRequest)
| EvWaitReceipt (hash : Hex)
| EvToastInfo (successText : option string) (hash : Hex)
| EvToastSuccess (successText : option string) (hash : Hex)
| EvToastError (description : string).

(** Calls that leave the page: the node, the wallet, the RPC endpoint. *)
Definition is_network_call (ev : Event) : bool :=
  match ev with
  | EvGetBlock | EvEstimateGas _ _ _ | EvSignTransaction _
  | EvPost _ | EvWaitReceipt _ => true
  | _ => false
  end.

(** *** The effect monad: environment, refs, exceptions, trace *)

Definition M (A : Type) : Type :=
  Env -> Refs -> Attempt A * Refs * list Event.

Definition ret {A} (a : A) : M A := fun _ r => (Returned a, r, []).

Definition bind {A B} (m : M A) (k : A -> M B) : M B :=
  fun env r =>
    match m env r with
    | (Returned a, r1, t1) =>
        match k a env r1 with
        | (b, r2, t2) => (b, r2, t1 ++ t2)
        end
    | (Threw e, r1, t1) => (Threw e, r1, t1)
    end.

Definition throw {A} (e : Error) : M A := fun _ r => (Threw e, r, []).

(** [try { m } catch (error) { h error }]. *)
Definition try_catch {A} (m : M A) (h : Error -> M A) : M A :=
  fun env r =>
    match m env r with
    | (Returned a, r1, t1) => (Returned a, r1, t1)
    | (Threw e, r1, t1) =>
        match h e env r1 with
        | (b, r2, t2) => (b, r2, t1 ++ t2)
        end
    end.

Definition ask : M Env := fun env r => (Returned env, r, []).
Definition get : M Refs := fun _ r => (Returned r, r, []).
Definition put (r : Refs) : M unit := fun _ _ => (Returned tt, r, []).
Definition emit (ev : Event) : M unit := fun _ r => (Returned tt, r, [ev]).

(** [await call], recording the call. *)
Definition await {A} (ev : Event) (call : Env -> Attempt A) : M A :=
  fun env r => (call env, r, [ev]).

(** A synchronous library call that may throw. *)
Definition lift {A} (call : Env -> Attempt A) : M A :=
  fun env r => (call env, r, []).

Notation "x <- m ;; k" := (bind m (fun x => k))
  (at level 61, m at next level, right associativity).
Notation "m ;; k" := (bind m (fun _ => k))
  (at level 61, right associativity).

Definition set_userNonce (n : Z) : M unit :=
  r <- get ;;
  put (mkRefs n (userBalance r) (userAddress r) (walletClient r)).

Definition set_userBalance (b : Z) : M unit :=
  r <- get ;;
  put (mkRefs (userNonce r) b (userAddress r) (walletClient r)).

Definition is_empty (s : string) : bool :=
  match s with EmptyString => true | _ => false end.

(** *** getCurrentGasPrices *)

Definition getCurrentGasPrices : M GasParams :=
  try_catch
    (latestBlock <- await EvGetBlock publicClient_getBlock ;;
     let baseFee := bigint_or (baseFeePerGas latestBlock) (parseGwei 1 0) in
     let maxFee := baseFee * 2 in
     let maxPriorityFee := parseGwei 1 0 in
     ret (mkGasParams maxFee maxPriorityFee))
    (fun _ =>
       ret (mkGasParams (parseGwei 20 1) (parseGwei 10 1))).

(** *** estimateGas *)

Definition estimateGas (data : Hex) : M Z :=
  try_catch
    (env <- ask ;;
     r <- get ;;
     let privyUserAddress := userAddress r in
     if is_empty privyUserAddress then
       throw (mkError "User address not available")
     else
       estimatedGas <-
         await (EvEstimateGas privyUserAddress (GAME_CONTRACT_ADDRESS env) data)
               (fun env =>
                  publicClient_estimateGas env privyUserAddress
                    (GAME_CONTRACT_ADDRESS env) data) ;;
       let gasWithBuffer := bigint_div (estimatedGas * 120) 100 in
       ret gasWithBuffer)
    (fun _ => ret 100000).

(** *** sendRawTransactionAndConfirm *)

Record SendArgs : Type := mkSendArgs {
  successText : option string;
  data : Hex;
  nonce : Z;
  gas : option Z;
  arg_maxFeePerGas : option Z;
  arg_maxPriorityFeePerGas : option Z
}.

Definition rpcUrl (env : Env) : string :=
  if String.eqb (hostname env) "localhost"
  then "/megaeth-rpc"
  else "https://carrot.megaeth.com/rpc".

(** [maxFeePerGas && maxPriorityFeePerGas ? {...} : await getCurrentGasPrices()] *)
Definition resolveGasParams (a : SendArgs) : M GasParams :=
  match arg_maxFeePerGas a, arg_maxPriorityFeePerGas a with
  | Some fee, Some tip =>
      if negb (fee =? 0) && negb (tip =? 0)
      then ret (mkGasParams fee tip)
      else getCurrentGasPrices
  | _, _ => getCurrentGasPrices
  end.

(** [gas || await estimateGas(data)] *)
Definition resolveGasLimit (a : SendArgs) : M Z :=
  match gas a with
  | Some g => if g =? 0 then estimateGas (data a) else ret g
  | None => estimateGas (data a)
  end.

(** The body of the [try] block. *)
Definition send_try (a : SendArgs) : M unit :=
  r <- get ;;
  match walletClient r with
  | None => throw (mkError "Wallet not found.")
  | Some provider =>
      let privyUserAddress := userAddress r in
      if is_empty privyUserAddress then
        throw (mkError "Privy user not found.")
      else
        gasParams <- resolveGasParams a ;;
        gasLimit <- resolveGasLimit a ;;
        env <- ask ;;
        let tx := mkTx (GAME_CONTRACT_ADDRESS env) privyUserAddress (data a)
                    (nonce a) gasLimit
                    (maxFeePerGas gasParams) (maxPriorityFeePerGas gasParams) in
        signedTransaction <-
          await (EvSignTransaction tx) (fun _ => signTransaction provider tx) ;;
        let req := mkPost (rpcUrl env) "eth_sendRawTransaction"
                     [signedTransaction] false 3 2000 in
        response <- await (EvPost req) (fun env => post env req) ;;
        match error response with
        | Some err => throw (mkError (rpc_message err))
        | None =>
            let transactionHash := result response in
            emit (EvToastInfo (successText a) transactionHash) ;;
            receipt <-
              await (EvWaitReceipt transactionHash)
                    (fun env => waitForTransactionReceipt env transactionHash) ;;
            match status receipt with
            | reverted =>
                throw (mkError
                         (String.append "Failed to confirm transaction: "
                                        transactionHash))
            | success =>
                emit (EvToastSuccess (successText a) transactionHash)
            end
        end
  end.

Definition sendRawTransactionAndConfirm (a : SendArgs) : M unit :=
  e <- try_catch
         (send_try a ;; ret None)
         (fun error =>
            emit (EvToastError (String.append "Error: " (message error))) ;;
            ret (Some error)) ;;
  match e with
  | Some err => throw err
  | None => ret tt
  end.

(** *** The domain operations *)

(** [parseFloat(formatEther(balance)) < 0.01] *)
Definition below_minimum (balance : Z) : bool :=
  double_lt (parseFloat (formatEther balance)) lit_0_01.

Definition initializeGameTransaction
    (gameId : Hex) (boards : list Z) (moves : list Z) : M unit :=
  r <- get ;;
  let balance := userBalance r in
  if below_minimum balance then
    throw (mkError "Signer has insufficient balance.")
  else
    data <- lift (fun env => encodeStartGame env gameId boards moves) ;;
    r <- get ;;
    let nonce := userNonce r in
    set_userNonce (number_add nonce 1) ;;
    set_userBalance (balance - parseEther 75 4) ;;
    sendRawTransactionAndConfirm
      (mkSendArgs (Some "Started game!") data nonce None None None).

Definition show_number (n : Z) : string :=
  DecimalString.NilZero.string_of_int (Z.to_int n).

Definition playNewMoveTransaction
    (gameId : Hex) (board : Z) (move : Z) (moveCount : Z) : M unit :=
  r <- get ;;
  let balance := userBalance r in
  if below_minimum balance then
    throw (mkError "Signer has insufficient balance.")
  else
    data <- lift (fun env => encodePlay env gameId move board) ;;
    r <- get ;;
    let nonce := userNonce r in
    set_userNonce (number_add nonce 1) ;;
    set_userBalance (balance - parseEther 5 3) ;;
    sendRawTransactionAndConfirm
      (mkSendArgs (Some (String.append "Played move " (show_number moveCount)))
                  data nonce None None None).

(** *** Observing a run *)

Definition outcome {A} (x : Attempt A * Refs * list Event) : Attempt A :=
  fst (fst x).
Definition refs_after {A} (x : Attempt A * Refs * list Event) : Refs :=
  snd (fst x).
Definition trace {A} (x : Attempt A * Refs * list Event) : list Event :=
  snd x.

(** The two read-only queries made while the gas fields are resolved. *)
Definition is_gas_query (ev : Event) : bool :=
  match ev with
  | EvGetBlock | EvEstimateGas _ _ _ => true
  | _ => false
  end.


(** The object literal passed to [signTransaction]. *)
Definition signedFields (env : Env) (r : Refs) (a : SendArgs)
    (gasParams : GasParams) (gasLimit : Z) : TxFields :=
  mkTx (GAME_CONTRACT_ADDRESS env) (userAddress r) (data a) (nonce a) gasLimit
       (maxFeePerGas gasParams) (maxPriorityFeePerGas gasParams).

(** The request passed to [post]. *)
Definition rawTransactionRequest (env : Env) (signedTransaction : Hex)
    : PostRequest :=
  mkPost (rpcUrl env) "eth_sendRawTransaction" [signedTransaction] false 3 2000.

Definition failureToast (e : Error) : Event :=
  EvToastError (String.append "Error: " (message e)).

Definition revertedError (transactionHash : Hex) : Error :=
  mkError (String.append "Failed to confirm transaction: " transactionHash).

(** The gas fields are resolved: wallet and address are present, and the
    two resolution steps returned [gasParams] and [gasLimit], emitting
    [pre]. *)
Definition Prepared (env : Env) (r : Refs) (a : SendArgs)
    (provider : Provider) (tx : TxFields) (pre : list Event) : Prop :=
  walletClient r = Some provider /\
  is_empty (userAddress r) = false /\
  exists gasParams gasLimit t1 t2,
    resolveGasParams a env r = (Returned gasParams, r, t1) /\
    resolveGasLimit a env r = (Returned gasLimit, r, t2) /\
    tx = signedFields env r a gasParams gasLimit /\
    pre = t1 ++ t2 /\
    forallb is_gas_query pre = true.

(** The paths through [sendRawTransactionAndConfirm], one constructor per
    way out of the [try] block. *)
Inductive SendRun (env : Env) (r : Refs) (a : SendArgs)
    : Attempt unit -> list Event -> Prop :=
| run_no_wallet :
    walletClient r = None ->
    SendRun env r a (Threw (mkError "Wallet not found."))
            [failureToast (mkError "Wallet not found.")]
| run_no_address provider :
    walletClient r = Some provider ->
    is_empty (userAddress r) = true ->
    SendRun env r a (Threw (mkError "Privy user not found."))
            [failureToast (mkError "Privy user not found.")]
| run_sign_threw provider tx pre e :
    Prepared env r a provider tx pre ->
    signTransaction provider tx = Threw e ->
    SendRun env r a (Threw e)
            (pre ++ [EvSignTransaction tx; failureToast e])
| run_post_threw provider tx pre signed e :
    Prepared env r a provider tx pre ->
    signTransaction provider tx = Returned signed ->
    post env (rawTransactionRequest env signed) = Threw e ->
    SendRun env r a (Threw e)
            (pre ++ [EvSignTransaction tx;
                     EvPost (rawTransactionRequest env signed);
                     failureToast e])
| run_rpc_error provider tx pre signed response err :
    Prepared env r a provider tx pre ->
    signTransaction provider tx = Returned signed ->
    post env (rawTransactionRequest env signed) = Returned response ->
    error response = Some err ->
    SendRun env r a (Threw (mkError (rpc_message err)))
            (pre ++ [EvSignTransaction tx;
                     EvPost (rawTransactionRequest env signed);
                     failureToast (mkError (rpc_message err))])
| run_wait_threw provider tx pre signed response e :
    Prepared env r a provider tx pre ->
    signTransaction provider tx = Returned signed ->
    post env (rawTransactionRequest env signed) = Returned response ->
    error response = None ->
    waitForTransactionReceipt env (result response) = Threw e ->
    SendRun env r a (Threw e)
            (pre ++ [EvSignTransaction tx;
                     EvPost (rawTransactionRequest env signed);
                     EvToastInfo (successText a) (result response);
                     EvWaitReceipt (result response);
                     failureToast e])
| run_reverted provider tx pre signed response receipt :
    Prepared env r a provider tx pre ->
    signTransaction provider tx = Returned signed ->
    post env (rawTransactionRequest env signed) = Returned response ->
    error response = None ->
    waitForTransactionReceipt env (result response) = Returned receipt ->
    status receipt = reverted ->
    SendRun env r a (Threw (revertedError (result response)))
            (pre ++ [EvSignTransaction tx;
                     EvPost (rawTransactionRequest env signed);
                     EvToastInfo (successText a) (result response);
                     EvWaitReceipt (result response);
                     failureToast (revertedError (result response))])
| run_confirmed provider tx pre signed response receipt :
    Prepared env r a provider tx pre ->
    signTransaction provider tx = Returned signed ->
    post env (rawTransactionRequest env signed) = Returned response ->
    error response = None ->
    waitForTransactionReceipt env (result response) = Returned receipt ->
    status receipt = success ->
    SendRun env r a (Returned tt)
            (pre ++ [EvSignTransaction tx;
                     EvPost (rawTransactionRequest env signed);
                     EvToastInfo (successText a) (result response);
                     EvWaitReceipt (result response);
                     EvToastSuccess (successText a) (result response)]).

(** The two domain operations, as one type of call. *)
Inductive DomainCall : Type :=
| InitializeGame (gameId : Hex) (boards : list Z) (moves : list Z)
| PlayNewMove (gameId : Hex) (board : Z) (move : Z) (moveCount : Z).

Definition run_call (c : DomainCall) : M unit :=
  match c with
  | InitializeGame gameId boards moves =>
      initializeGameTransaction gameId boards moves
  | PlayNewMove gameId board move moveCount =>
      playNewMoveTransaction gameId board move moveCount
  end.

(** The estimated cost each operation takes off the cached balance. *)
Definition estimatedCost (c : DomainCall) : Z :=
  match c with
  | InitializeGame _ _ _ => parseEther 75 4
  | PlayNewMove _ _ _ _ => parseEther 5 3
  end.

Definition insufficientBalance : Error :=
  mkError "Signer has insufficient balance.".

(** The call data each operation encodes. *)
Definition encodeCall (env : Env) (c : DomainCall) : Attempt Hex :=
  match c with
  | InitializeGame gameId boards moves => encodeStartGame env gameId boards moves
  | PlayNewMove gameId board move _ => encodePlay env gameId move board
  end.

(** The arguments each operation hands to [sendRawTransactionAndConfirm]. *)
Definition sendArgsOf (c : DomainCall) (data : Hex) (nonce : Z) : SendArgs :=
  match c with
  | InitializeGame _ _ _ =>
      mkSendArgs (Some "Started game!") data nonce None None None
  | PlayNewMove _ _ _ moveCount =>
      mkSendArgs (Some (String.append "Played move " (show_number moveCount)))
                 data nonce None None None
  end.

(** The refs after the optimistic update of an operation. *)
Definition advanceCache (r : Refs) (c : DomainCall) : Refs :=
  mkRefs (number_add (userNonce r) 1) (userBalance r - estimatedCost c)
         (userAddress r) (walletClient r).

(** *** Sample environments *)

Definition sample_provider : Provider :=
  mkProvider (fun _ => Returned "0xf86b").

Definition sample_refs : Refs :=
  mkRefs 7 (parseEther 5 2) "0x1111" (Some sample_provider).

(** A funded account below the threshold by one wei. *)
Definition poor_refs : Refs :=
  mkRefs 7 (parseEther 1 2 - 1) "0x1111" (Some sample_provider).

Definition sample_env (block : Attempt Block) (estimate : Attempt Z)
    (response : Attempt Response) (receipt : Attempt Receipt) : Env :=
  mkEnv "0x2048" "localhost" block (fun _ _ _ => estimate)
        (fun _ => response) (fun _ => receipt)
        (fun _ _ _ => Returned "0xaa01") (fun _ _ _ => Returned "0xbb02").

Definition network_down : Error := mkError "HTTP request failed.".

Definition healthy_env : Env :=
  sample_env (Returned (mkBlock (Some (parseGwei 3 0)))) (Returned 95432)
             (Returned (mkResponse None "0xabc"))
             (Returned (mkReceipt success)).

Definition env_block_fails : Env :=
  sample_env (Threw network_down) (Returned 95432)
             (Returned (mkResponse None "0xabc"))
             (Returned (mkReceipt success)).

(** A chain whose base fee is 0.001 gwei. *)
Definition env_low_base_fee : Env :=
  sample_env (Returned (mkBlock (Some (parseGwei 1 3)))) (Returned 95432)
             (Returned (mkResponse None "0xabc"))
             (Returned (mkReceipt success)).

Definition env_high_base_fee : Env :=
  sample_env (Returned (mkBlock (Some (parseGwei 10 0)))) (Returned 95432)
             (Returned (mkResponse None "0xabc"))
             (Returned (mkReceipt success)).

Definition env_estimate_fails : Env :=
  sample_env (Returned (mkBlock (Some (parseGwei 3 0)))) (Threw network_down)
             (Returned (mkResponse None "0xabc"))
             (Returned (mkReceipt success)).

Definition env_nonce_too_low : Env :=
  sample_env (Returned (mkBlock (Some (parseGwei 3 0)))) (Returned 95432)
             (Returned (mkResponse (Some (mkRpcError "nonce too low")) ""))
             (Returned (mkReceipt success)).

Definition env_reverted : Env :=
  sample_env (Returned (mkBlock (Some (parseGwei 3 0)))) (Returned 95432)
             (Returned (mkResponse None "0xabc"))
             (Returned (mkReceipt reverted)).

Definition sample_start : DomainCall :=
  InitializeGame "0x67616d65" [1; 2; 3; 4] [0; 1; 2].

Definition sample_move : DomainCall := PlayNewMove "0x67616d65" 5 3 12.

Definition sample_args : SendArgs :=
  mkSendArgs (Some "Started game!") "0xaa01" 7 None None None.

End V1.

(** ** The wagmi hook with [getOptimizedGasConfig] *)

Module V2.

Record Block : Type := mkBlock { baseFeePerGas : option Z }.

(** The client [usePublicClient()] returns; the hook reaches it through
    [publicClient?.], so it may be [undefined]. *)
Record PublicClient : Type := mkClient {
  getBlock : Attempt (option Block);
  getGasPrice : Attempt (option Z);
  encodeFunctionData : string -> list Z -> Attempt Hex;
  estimateGas : Hex -> Hex -> Hex -> Z -> Attempt Z
}.

Record GasConfig : Type := mkGasConfig {
  gas : Z;
  maxFeePerGas : Z;
  maxPriorityFeePerGas : Z
}.

Notation "x <- m ;; k" := (attempt_bind m (fun x => k))
  (at level 61, m at next level, right associativity).

(** First inner [try]: base fee and gas price read from the node. *)
Definition readNetworkGas (publicClient : option PublicClient) : Attempt (Z * Z) :=
  match publicClient with
  | None =>
      Returned (bigint_or None (parseEther 1 3), bigint_or None (parseEther 2 3))
  | Some client =>
      block <- getBlock client ;;
      let baseFee :=
        bigint_or (match block with Some b => baseFeePerGas b | None => None end)
                  (parseEther 1 3) in
      price <- getGasPrice client ;;
      let gasPrice := bigint_or price (parseEther 2 3) in
      Returned (baseFee, gasPrice)
  end.

(** Second inner [try]: the estimate with its 25% buffer.  With no client
    the optional call yields [undefined], and [undefined * 125n] throws. *)
Definition estimateWithBuffer (publicClient : option PublicClient)
    (contractAddress : Hex) (functionName : string) (args : list Z)
    (account : Hex) (value : option Z) : Attempt Z :=
  match publicClient with
  | None => Threw (mkError "Cannot mix BigInt and other types")
  | Some client =>
      data <- encodeFunctionData client functionName args ;;
      estimatedGas <-
        estimateGas client account contractAddress data (bigint_or value 0) ;;
      Returned (bigint_div (estimatedGas * 125) 100)
  end.

Definition fallbackGasLimit (functionName : string) : Z :=
  if String.eqb functionName "startGame" then 150000 else 100000.

(** The first inner [try] with its [catch]. *)
Definition networkGas (publicClient : option PublicClient) : Z * Z :=
  attempt_catch (readNetworkGas publicClient)
                (fun _ => (parseEther 1 3, parseEther 2 3)).

(** The second inner [try] with its [catch]. *)
Definition gasLimitFor (publicClient : option PublicClient)
    (contractAddress : Hex) (functionName : string) (args : list Z)
    (account : Hex) (value : option Z) : Z :=
  attempt_catch
    (estimateWithBuffer publicClient contractAddress functionName args
                        account value)
    (fun _ => fallbackGasLimit functionName).

(** The body of the outer [try]. *)
Definition getOptimizedGasConfig_try (publicClient : option PublicClient)
    (contractAddress : Hex) (functionName : string) (args : list Z)
    (account : Hex) (value : option Z) : Attempt GasConfig :=
  let '(baseFee, gasPrice) := networkGas publicClient in
  let gasLimit :=
    gasLimitFor publicClient contractAddress functionName args account value in
  let maxPriorityFee :=
    if baseFee <? parseEther 1 3 then parseEther 5 4 else parseEther 2 3 in
  let calculatedMaxFee := baseFee * 2 + maxPriorityFee in
  let gasPriceBasedFee := gasPrice + maxPriorityFee in
  let maxFee :=
    if calculatedMaxFee >? gasPriceBasedFee
    then calculatedMaxFee else gasPriceBasedFee in
  if maxPriorityFee >=? maxFee then
    let adjustedMaxFee := maxPriorityFee * 3 in
    Returned (mkGasConfig gasLimit adjustedMaxFee maxPriorityFee)
  else
    Returned (mkGasConfig gasLimit maxFee maxPriorityFee).

(** The [catch] of the outer [try]. *)
Definition ultraConservativeFallback (functionName : string) : GasConfig :=
  mkGasConfig (fallbackGasLimit functionName) (parseEther 1 2) (parseEther 2 3).

Definition getOptimizedGasConfig (publicClient : option PublicClient)
    (contractAddress : Hex) (functionName : string) (args : list Z)
    (account : Hex) (value : option Z) : GasConfig :=
  attempt_catch
    (getOptimizedGasConfig_try publicClient contractAddress functionName args
                               account value)
    (fun _ => ultraConservativeFallback functionName).

(** *** Sample clients *)

Definition client_down : PublicClient :=
  mkClient (Threw (mkError "HTTP request failed."))
           (Threw (mkError "HTTP request failed."))
           (fun _ _ => Returned "0xcc03")
           (fun _ _ _ _ => Threw (mkError "HTTP request failed.")).

Definition client_up : PublicClient :=
  mkClient (Returned (Some (mkBlock (Some 1200000000))))
           (Returned (Some 1500000000))
           (fun _ _ => Returned "0xcc03")
           (fun _ _ _ _ => Returned 95432).

End V2.

(** ** The login effects of the Privy/viem hook *)

Module V1_Session.
Import V1.

(** An entry of [user.linkedAccounts]; only wallet entries carry a
    [walletClientType] and an [address]. *)
Record LinkedAccount : Type := mkAccount {
  acc_type : string;
  acc_walletClientType : option string;
  acc_address : option string
}.

Record User : Type := mkUser { linkedAccounts : list LinkedAccount }.

(** The two account queries [resetNonceAndBalance] sends to the node. *)
Record Node : Type := mkNode {
  getTransactionCount : string -> Attempt Z;
  getBalance : string -> Attempt Z
}.

Inductive NodeQuery : Type :=
| QTransactionCount (address : string)
| QBalance (address : string).

(** [account.type === "wallet" && account.walletClientType === "privy"] *)
Definition is_privy_account (account : LinkedAccount) : bool :=
  String.eqb (acc_type account) "wallet" &&
  match acc_walletClientType account with
  | Some t => String.eqb t "privy"
  | None => false
  end.

(** *** resetNonceAndBalance *)

Definition resetNonceAndBalance (user : option User) (node : Node) (r : Refs)
    : Attempt unit * Refs * list NodeQuery :=
  match user with
  | None => (Returned tt, r, [])
  | Some u =>
      match filter is_privy_account (linkedAccounts u) with
      | [] => (Returned tt, r, [])
      | privyUser :: _ =>
          match acc_address privyUser with
          | None => (Returned tt, r, [])
          | Some privyUserAddress =>
              if is_empty privyUserAddress then (Returned tt, r, [])
              else
                match getTransactionCount node privyUserAddress with
                | Threw e => (Threw e, r, [QTransactionCount privyUserAddress])
                | Returned nonce =>
                    match getBalance node privyUserAddress with
                    | Threw e =>
                        (Threw e, r,
                         [QTransactionCount privyUserAddress;
                          QBalance privyUserAddress])
                    | Returned balance =>
                        (Returned tt,
                         mkRefs nonce balance privyUserAddress (walletClient r),
                         [QTransactionCount privyUserAddress;
                          QBalance privyUserAddress])
                    end
                end
          end
      end
  end.

(** *** getWalletClient *)

(** An entry of [wallets]; [EthereumProvider] is what
    [getEthereumProvider] resolves to. *)
Record ConnectedWallet (EthereumProvider : Type) : Type := mkWallet {
  walletClientType : string;
  getEthereumProvider : Attempt EthereumProvider
}.
Arguments mkWallet {EthereumProvider} _ _.
Arguments walletClientType {EthereumProvider} _.
Arguments getEthereumProvider {EthereumProvider} _.

(** [createWalletClient] is viem's; it is a parameter here. *)
Definition getWalletClient {EthereumProvider : Type}
    (createWalletClient : EthereumProvider -> Provider)
    (ready : bool) (wallets : option (list (ConnectedWallet EthereumProvider)))
    (r : Refs) : Attempt unit * Refs :=
  if negb ready then (Returned tt, r)
  else
    match wallets with
    | None => (Returned tt, r)
    | Some ws =>
        match find (fun w => String.eqb (walletClientType w) "privy") ws with
        | None => (Returned tt, r)
        | Some userWallet =>
            match getEthereumProvider userWallet with
            | Threw e => (Threw e, r)
            | Returned ethereumProvider =>
                (Returned tt,
                 mkRefs (userNonce r) (userBalance r) (userAddress r)
                        (Some (createWalletClient ethereumProvider)))
            end
        end
    end.

(** *** More sample data *)

(** Neither the block nor the estimate can be read. *)
Definition env_reads_fail : Env :=
  sample_env (Threw network_down) (Threw network_down)
             (Returned (mkResponse None "0xabc"))
             (Returned (mkReceipt success)).

(** The wallet refuses to sign. *)
Definition refusing_provider : Provider :=
  mkProvider (fun _ => Threw (mkError "User rejected the request.")).

Definition refusing_refs : Refs :=
  mkRefs 7 (parseEther 5 2) "0x1111" (Some refusing_provider).

Definition no_wallet_refs : Refs := mkRefs 7 (parseEther 5 2) "" None.

Definition no_address_refs : Refs :=
  mkRefs 7 (parseEther 5 2) "" (Some sample_provider).

(** The encoder rejects the arguments. *)
Definition env_encoder_fails : Env :=
  mkEnv "0x2048" "localhost"
        (Returned (mkBlock (Some (parseGwei 3 0)))) (fun _ _ _ => Returned 95432)
        (fun _ => Returned (mkResponse None "0xabc"))
        (fun _ => Returned (mkReceipt success))
        (fun _ _ _ => Threw (mkError "Size of bytes does not match."))
        (fun _ _ _ => Threw (mkError "Size of bytes does not match.")).

Definition full_args : SendArgs :=
  mkSendArgs (Some "Started game!") "0xaa01" 7
             (Some 120000) (Some 5000000000) (Some 1500000000).

Definition sample_node : Node :=
  mkNode (fun _ => Returned 41) (fun _ => Returned (parseEther 3 2)).

Definition node_balance_down : Node :=
  mkNode (fun _ => Returned 41) (fun _ => Threw network_down).

Definition email_account : LinkedAccount := mkAccount "email" None None.

Definition privy_account : LinkedAccount :=
  mkAccount "wallet" (Some "privy") (Some "0x2222").

Definition privy_account_no_address : LinkedAccount :=
  mkAccount "wallet" (Some "privy") None.

Definition sample_user : User := mkUser [email_account; privy_account].

Definition sample_wallets : list (ConnectedWallet Provider) :=
  [mkWallet "metamask" (Returned refusing_provider);
   mkWallet "privy" (Returned sample_provider)].

End V1_Session.

(** ** The callers of [getOptimizedGasConfig] *)

Module V2_Calls.
Import V2.

(** The object handed to [writeContract]: the call and the spread
    [gasConfig]. *)
Record WriteRequest : Type := mkWrite {
  w_address : Hex;
  w_functionName : string;
  w_args : option (list Z);
  w_value : option Z;
  w_gas : Z;
  w_maxFeePerGas : Z;
  w_maxPriorityFeePerGas : Z
}.

(** [try { m } catch (error) { throw error }] *)
Definition rethrow {A} (m : Attempt A) : Attempt A :=
  match m with
  | Returned a => Returned a
  | Threw error => Threw error
  end.

Definition startGame (publicClient : option PublicClient)
    (writeContract : WriteRequest -> Attempt unit)
    (gameContractAddress : Hex) (account : Hex) : Attempt unit :=
  rethrow
    (let gasConfig :=
       getOptimizedGasConfig publicClient gameContractAddress "startGame" []
                             account (Some (parseEther 1 3)) in
     writeContract
       (mkWrite gameContractAddress "startGame" None (Some (parseEther 1 3))
                (gas gasConfig) (maxFeePerGas gasConfig)
                (maxPriorityFeePerGas gasConfig))).

Definition playMove (publicClient : option PublicClient)
    (writeContract : WriteRequest -> Attempt unit)
    (gameContractAddress : Hex) (direction : Z) (account : Hex)
    : Attempt unit :=
  rethrow
    (let gasConfig :=
       getOptimizedGasConfig publicClient gameContractAddress "play"
                             [direction] account None in
     writeContract
       (mkWrite gameContractAddress "play" (Some [direction]) None
                (gas gasConfig) (maxFeePerGas gasConfig)
                (maxPriorityFeePerGas gasConfig))).

(** A node whose gas-price read fails after the block was read. *)
Definition client_price_down : PublicClient :=
  mkClient (Returned (Some (mkBlock (Some 7000000000))))
           (Threw (mkError "HTTP request failed."))
           (fun _ _ => Returned "0xcc03")
           (fun _ _ _ _ => Returned 95432).

Definition wallet_rejects : WriteRequest -> Attempt unit :=
  fun _ => Threw (mkError "User rejected the request.").

End V2_Calls.

(** ** Submission with arbitrary thrown values

    A JavaScript [throw], and the rejection of a promise, can carry any
    value, not only an [Error] object.  The [catch] block of
    [sendRawTransactionAndConfirm] reads [e.message] and rethrows under
    [if (e)], so what it does depends on the value caught.  This module
    models the submission again with collaborators that may reject with
    any value; [V1] is its restriction to [Error] objects
    ([V1_Thrown_Proofs.agrees_with_V1]). *)

Module V1_Thrown.

(** The values a collaborator may throw: an [Error] object, [null],
    [undefined], a boolean, an integer number or a string. *)
Inductive JsValue : Type :=
| JsError (e : Error)
| JsNull
| JsUndefined
| JsBoolean (b : bool)
| JsNumber (n : Z)
| JsString (s : string).

(** [if (v)] *)
Definition js_truthy (v : JsValue) : bool :=
  match v with
  | JsError _ => true
  | JsNull | JsUndefined => false
  | JsBoolean b => b
  | JsNumber n => negb (n =? 0)
  | JsString s => negb (V1.is_empty s)
  end.

(** [v.message]: [None] when the read itself throws a [TypeError] (on
    [null] and [undefined]); [Some None] when it yields [undefined] (on
    primitives). *)
Definition js_message (v : JsValue) : option (option string) :=
  match v with
  | JsError e => Some (Some (message e))
  | JsNull | JsUndefined => None
  | JsBoolean _ | JsNumber _ | JsString _ => Some None
  end.

(** A string or [undefined] inside a template literal. *)
Definition js_interpolate (m : option string) : string :=
  match m with
  | Some s => s
  | None => "undefined"
  end.

(** The [TypeError] of reading [message] on [null] or [undefined]. *)
Definition messageTypeError (v : JsValue) : Error :=
  match v with
  | JsUndefined =>
      mkError "Cannot read properties of undefined (reading 'message')"
  | _ => mkError "Cannot read properties of null (reading 'message')"
  end.

Inductive Completion (A : Type) : Type :=
| Normal (a : A)
| Abrupt (v : JsValue).
Arguments Normal {A} a.
Arguments Abrupt {A} v.

Record Provider : Type := mkProvider {
  signTransaction : V1.TxFields -> Completion Hex
}.

Record Refs : Type := mkRefs {
  userNonce : Z;
  userBalance : Z;
  userAddress : string;
  walletClient : option Provider
}.

Record Env : Type := mkEnv {
  GAME_CONTRACT_ADDRESS : Hex;
  hostname : string;
  publicClient_getBlock : Completion V1.Block;
  publicClient_estimateGas : string -> Hex -> Hex -> Completion Z;
  post : V1.PostRequest -> Completion V1.Response;
  waitForTransactionReceipt : Hex -> Completion V1.Receipt
}.

(** The functions below read the refs and never assign them, so a run is
    a completion and a trace. *)
Definition R (A : Type) : Type :=
  Env -> Refs -> Completion A * list V1.Event.

Definition ret {A} (a : A) : R A := fun _ _ => (Normal a, []).

Definition bind {A B} (m : R A) (k : A -> R B) : R B :=
  fun env r =>
    match m env r with
    | (Normal a, t1) =>
        match k a env r with
        | (b, t2) => (b, t1 ++ t2)
        end
    | (Abrupt v, t1) => (Abrupt v, t1)
    end.

Definition throw {A} (v : JsValue) : R A := fun _ _ => (Abrupt v, []).

Definition try_catch {A} (m : R A) (h : JsValue -> R A) : R A :=
  fun env r =>
    match m env r with
    | (Normal a, t1) => (Normal a, t1)
    | (Abrupt v, t1) =>
        match h v env r with
        | (b, t2) => (b, t1 ++ t2)
        end
    end.

Definition ask : R Env := fun env _ => (Normal env, []).
Definition get : R Refs := fun _ r => (Normal r, []).
Definition emit (ev : V1.Event) : R unit := fun _ _ => (Normal tt, [ev]).
Definition await {A} (ev : V1.Event) (call : Env -> Completion A) : R A :=
  fun env _ => (call env, [ev]).

Notation "x <- m ;; k" := (bind m (fun x => k))
  (at level 61, m at next level, right associativity).
Notation "m ;; k" := (bind m (fun _ => k))
  (at level 61, right associativity).

Definition getCurrentGasPrices : R V1.GasParams :=
  try_catch
    (latestBlock <- await V1.EvGetBlock publicClient_getBlock ;;
     let baseFee := bigint_or (V1.baseFeePerGas latestBlock) (parseGwei 1 0) in
     let maxFee := baseFee * 2 in
     let maxPriorityFee := parseGwei 1 0 in
     ret (V1.mkGasParams maxFee maxPriorityFee))
    (fun _ =>
       ret (V1.mkGasParams (parseGwei 20 1) (parseGwei 10 1))).

Definition estimateGas (data : Hex) : R Z :=
  try_catch
    (env <- ask ;;
     r <- get ;;
     let privyUserAddress := userAddress r in
     if V1.is_empty privyUserAddress then
       throw (JsError (mkError "User address not available"))
     else
       estimatedGas <-
         await (V1.EvEstimateGas privyUserAddress (GAME_CONTRACT_ADDRESS env)
                                 data)
               (fun env =>
                  publicClient_estimateGas env privyUserAddress
                    (GAME_CONTRACT_ADDRESS env) data) ;;
       let gasWithBuffer := bigint_div (estimatedGas * 120) 100 in
       ret gasWithBuffer)
    (fun _ => ret 100000).

Definition rpcUrl (env : Env) : string :=
  if String.eqb (hostname env) "localhost"
  then "/megaeth-rpc"
  else "https://carrot.megaeth.com/rpc".

Definition resolveGasParams (a : V1.SendArgs) : R V1.GasParams :=
  match V1.arg_maxFeePerGas a, V1.arg_maxPriorityFeePerGas a with
  | Some fee, Some tip =>
      if negb (fee =? 0) && negb (tip =? 0)
      then ret (V1.mkGasParams fee tip)
      else getCurrentGasPrices
  | _, _ => getCurrentGasPrices
  end.

Definition resolveGasLimit (a : V1.SendArgs) : R Z :=
  match V1.gas a with
  | Some g => if g =? 0 then estimateGas (V1.data a) else ret g
  | None => estimateGas (V1.data a)
  end.

(** The body of the [try] block; the hook's own throws are [Error]
    objects. *)
Definition send_try (a : V1.SendArgs) : R unit :=
  r <- get ;;
  match walletClient r with
  | None => throw (JsError (mkError "Wallet not found."))
  | Some provider =>
      let privyUserAddress := userAddress r in
      if V1.is_empty privyUserAddress then
        throw (JsError (mkError "Privy user not found."))
      else
        gasParams <- resolveGasParams a ;;
        gasLimit <- resolveGasLimit a ;;
        env <- ask ;;
        let tx := V1.mkTx (GAME_CONTRACT_ADDRESS env) privyUserAddress
                    (V1.data a) (V1.nonce a) gasLimit
                    (V1.maxFeePerGas gasParams)
                    (V1.maxPriorityFeePerGas gasParams) in
        signedTransaction <-
          await (V1.EvSignTransaction tx)
                (fun _ => signTransaction provider tx) ;;
        let req := V1.mkPost (rpcUrl env) "eth_sendRawTransaction"
                     [signedTransaction] false 3 2000 in
        response <- await (V1.EvPost req) (fun env => post env req) ;;
        match V1.error response with
        | Some err => throw (JsError (mkError (V1.rpc_message err)))
        | None =>
            let transactionHash := V1.result response in
            emit (V1.EvToastInfo (V1.successText a) transactionHash) ;;
            receipt <-
              await (V1.EvWaitReceipt transactionHash)
                    (fun env => waitForTransactionReceipt env transactionHash) ;;
            match V1.status receipt with
            | V1.reverted =>
                throw (JsError (V1.revertedError transactionHash))
            | V1.success =>
                emit (V1.EvToastSuccess (V1.successText a) transactionHash)
            end
        end
  end.

(** [`Error: ${e.message}`], evaluated before [toast.error] is called:
    on [null] and [undefined] it throws instead. *)
Definition failureDescription (e : JsValue) : R string :=
  match js_message e with
  | None => throw (JsError (messageTypeError e))
  | Some m => ret (String.append "Error: " (js_interpolate m))
  end.

(** [e] starts as [null]; the [catch] block stores what it caught and
    shows the toast; [if (e) throw e] ends the function. *)
Definition sendRawTransactionAndConfirm (a : V1.SendArgs) : R unit :=
  e <- try_catch
         (send_try a ;; ret JsNull)
         (fun error =>
            description <- failureDescription error ;;
            emit (V1.EvToastError description) ;;
            ret error) ;;
  if js_truthy e then throw e else ret tt.

Definition outcome {A} (x : Completion A * list V1.Event) : Completion A :=
  fst x.
Definition trace {A} (x : Completion A * list V1.Event) : list V1.Event :=
  snd x.

(** *** The [V1] model inside this one: every rejection an [Error] *)

Definition of_attempt {A} (x : Attempt A) : Completion A :=
  match x with
  | Returned a => Normal a
  | Threw e => Abrupt (JsError e)
  end.

Definition of_provider (p : V1.Provider) : Provider :=
  mkProvider (fun tx => of_attempt (V1.signTransaction p tx)).

Definition of_refs (r : V1.Refs) : Refs :=
  mkRefs (V1.userNonce r) (V1.userBalance r) (V1.userAddress r)
         (option_map of_provider (V1.walletClient r)).

Definition of_env (env : V1.Env) : Env :=
  mkEnv (V1.GAME_CONTRACT_ADDRESS env) (V1.hostname env)
        (of_attempt (V1.publicClient_getBlock env))
        (fun account to data =>
           of_attempt (V1.publicClient_estimateGas env account to data))
        (fun req => of_attempt (V1.post env req))
        (fun hash => of_attempt (V1.waitForTransactionReceipt env hash)).

(** *** The ways out of the [try] block *)

Definition Prepared (env : Env) (r : Refs) (a : V1.SendArgs)
    (provider : Provider) (tx : V1.TxFields) (pre : list V1.Event) : Prop :=
  walletClient r = Some provider /\
  V1.is_empty (userAddress r) = false /\
  exists gasParams gasLimit t1 t2,
    resolveGasParams a env r = (Normal gasParams, t1) /\
    resolveGasLimit a env r = (Normal gasLimit, t2) /\
    tx = V1.mkTx (GAME_CONTRACT_ADDRESS env) (userAddress r) (V1.data a)
                 (V1.nonce a) gasLimit (V1.maxFeePerGas gasParams)
                 (V1.maxPriorityFeePerGas gasParams) /\
    pre = t1 ++ t2 /\
    forallb V1.is_gas_query pre = true.

Definition rawTransactionRequest (env : Env) (signedTransaction : Hex)
    : V1.PostRequest :=
  V1.mkPost (rpcUrl env) "eth_sendRawTransaction" [signedTransaction]
            false 3 2000.


(** *** Sample collaborators *)

Definition signing_provider : Provider :=
  mkProvider (fun _ => Normal "0xf86b").

Definition sample_refs : Refs :=
  mkRefs 7 (parseEther 5 2) "0x1111" (Some signing_provider).

Definition sample_env (response : Completion V1.Response)
    (receipt : Completion V1.Receipt) : Env :=
  mkEnv "0x2048" "localhost"
        (Normal (V1.mkBlock (Some (parseGwei 3 0))))
        (fun _ _ _ => Normal 95432)
        (fun _ => response) (fun _ => receipt).




End V1_Thrown.

(** ** A public client as viem provides it *)

Module V2_Clients.
Import V2.

(** A client that answers every read but has no [encodeFunctionData]
    method: calling it throws a [TypeError]. *)
Definition client_without_encoder : PublicClient :=
  mkClient (Returned (Some (mkBlock (Some 1200000000))))
           (Returned (Some 1500000000))
           (fun _ _ =>
              Threw (mkError "publicClient.encodeFunctionData is not a function"))
           (fun _ _ _ _ => Returned 95432).

End V2_Clients.

(** * Properties *)

(** ** Figures quoted by the repository, replayed on the model *)

(** [0.01] is [0x1.47ae147ae147bp-7]. *)
Example literal_0_01 : lit_0_01 = (5764607523034235, -59).
Proof. reflexivity. Qed.

Example literal_0_1 : parseFloat (1, 10) = (7205759403792794, -56).
Proof. reflexivity. Qed.

(** The guard at the threshold itself and one wei below it. *)
Example guard_at_threshold :
  V1.below_minimum 10000000000000000 = false /\
  V1.below_minimum 9999999999999999 = true.
Proof. split; reflexivity. Qed.

(** [2^53 + 1] is not a double. *)
Example number_add_loses_one : number_add (2 ^ 53) 1 = 2 ^ 53.
Proof. reflexivity. Qed.

Example fee_constants :
  parseGwei 1 0 = 1000000000 /\ parseGwei 20 1 = 2000000000 /\
  parseEther 75 4 = 7500000000000000 /\ parseEther 5 3 = 5000000000000000 /\
  parseEther 1 2 = 10000000000000000 /\ parseEther 1 3 = 1000000000000000.
Proof. repeat split. Qed.

(** The README's log: "Estimated gas: 95432, Gas with buffer: 114518". *)
Example readme_gas_with_buffer : bigint_div (95432 * 120) 100 = 114518.
Proof. reflexivity. Qed.

(** The README's log: base fee 1000000000, max fee 2000000000, max priority
    fee 1000000000. *)
Example readme_gas_prices :
  V1.outcome
    (V1.getCurrentGasPrices
       (V1.sample_env (Returned (V1.mkBlock (Some 1000000000))) (Returned 95432)
          (Returned (V1.mkResponse None "0xabc"))
          (Returned (V1.mkReceipt V1.success)))
       V1.sample_refs)
  = Returned (V1.mkGasParams 2000000000 1000000000).
Proof. reflexivity. Qed.

(** A whole run of [initializeGameTransaction] against a healthy node. *)
Example healthy_start_run :
  V1.run_call V1.sample_start V1.healthy_env V1.sample_refs
  = (Returned tt,
     V1.mkRefs 8 42500000000000000 "0x1111" (Some V1.sample_provider),
     [V1.EvGetBlock;
      V1.EvEstimateGas "0x1111" "0x2048" "0xaa01";
      V1.EvSignTransaction
        (V1.mkTx "0x2048" "0x1111" "0xaa01" 7 114518 6000000000 1000000000);
      V1.EvPost
        (V1.mkPost "/megaeth-rpc" "eth_sendRawTransaction" ["0xf86b"]
                   false 3 2000);
      V1.EvToastInfo (Some "Started game!") "0xabc";
      V1.EvWaitReceipt "0xabc";
      V1.EvToastSuccess (Some "Started game!") "0xabc"]).
Proof. reflexivity. Qed.

(** A move refused by the node: the cache stays advanced. *)
Example refused_move_run :
  V1.run_call V1.sample_move V1.env_nonce_too_low V1.sample_refs
  = (Threw (mkError "nonce too low"),
     V1.mkRefs 8 45000000000000000 "0x1111" (Some V1.sample_provider),
     [V1.EvGetBlock;
      V1.EvEstimateGas "0x1111" "0x2048" "0xbb02";
      V1.EvSignTransaction
        (V1.mkTx "0x2048" "0x1111" "0xbb02" 7 114518 6000000000 1000000000);
      V1.EvPost
        (V1.mkPost "/megaeth-rpc" "eth_sendRawTransaction" ["0xf86b"]
                   false 3 2000);
      V1.EvToastError "Error: nonce too low"]).
Proof. reflexivity. Qed.

(** ** Rounding to binary64 *)

Lemma rne_cases (n d : Z) :
  0 < d -> n / d <= rne n d <= n / d + 1.
Proof.
  intros Hd. unfold rne.
  destruct (2 * (n mod d) <? d); [lia|].
  destruct (d <? 2 * (n mod d)); [lia|].
  destruct (Z.even (n / d)); lia.
Qed.

Lemma rne_mono (n1 n2 d : Z) :
  0 < d -> n1 <= n2 -> rne n1 d <= rne n2 d.
Proof.
  intros Hd Hn.
  assert (Hq : n1 / d <= n2 / d) by (apply Z.div_le_mono; lia).
  destruct (Z.eq_dec (n1 / d) (n2 / d)) as [E|NE].
  - assert (Hr : n1 mod d <= n2 mod d).
    { pose proof (Z.div_mod n1 d ltac:(lia)).
      pose proof (Z.div_mod n2 d ltac:(lia)).
      rewrite E in *. lia. }
    unfold rne. rewrite E.
    destruct (2 * (n1 mod d) <? d) eqn:A1;
      destruct (2 * (n2 mod d) <? d) eqn:A2;
      destruct (d <? 2 * (n1 mod d)) eqn:B1;
      destruct (d <? 2 * (n2 mod d)) eqn:B2;
      destruct (Z.even (n2 / d)); lia.
  - pose proof (rne_cases n1 d Hd). pose proof (rne_cases n2 d Hd). lia.
Qed.

Lemma rne_exact (k d : Z) : 0 < d -> rne (k * d) d = k.
Proof.
  intros Hd. unfold rne.
  rewrite Z.div_mul by lia. rewrite Z.mod_mul by lia.
  destruct (2 * 0 <? d) eqn:A; lia.
Qed.

Lemma pow2_pos (k : Z) : 0 <= k -> 0 < 2 ^ k.
Proof. intros. apply Z.pow_pos_nonneg; lia. Qed.

Lemma div_bounds_log2 (n d : Z) :
  0 < n -> 0 < d -> d <= n ->
  let L := Z.log2 (n / d) in
  0 <= L /\ d * 2 ^ L <= n < d * 2 ^ (L + 1).
Proof.
  intros Hn Hd Hle L.
  assert (HY : 0 < n / d) by (apply Z.div_str_pos; lia).
  pose proof (Z.log2_spec (n / d) HY) as [H1 H2].
  fold L in H1, H2. replace (Z.succ L) with (L + 1) in H2 by lia.
  pose proof (Z.log2_nonneg (n / d)). fold L in H.
  pose proof (Z.div_mod n d ltac:(lia)) as E.
  pose proof (Z.mod_pos_bound n d Hd) as R.
  split; [lia|]. split; nia.
Qed.

Lemma round64_significand (n d : Z) :
  0 < n -> 0 < d -> d <= n * 2 ^ 1100 ->
  2 ^ 52 <= fst (round64 n d) <= 2 ^ 53.
Proof.
  intros Hn Hd Hle. unfold round64. cbn [fst].
  pose proof (pow2_pos 1100 ltac:(lia)) as HP.
  destruct (div_bounds_log2 (n * 2 ^ 1100) d ltac:(nia) Hd Hle) as (HL & Hlo & Hhi).
  set (L := Z.log2 (n * 2 ^ 1100 / d)) in *.
  destruct (L - 1100 - 52 <? 0) eqn:E.
  - apply Z.ltb_lt in E.
    replace (- (L - 1100 - 52)) with (1152 - L) by lia.
    set (a := n * 2 ^ (1152 - L)).
    assert (Ha : a * 2 ^ L = n * 2 ^ 1100 * 2 ^ 52).
    { unfold a. rewrite <- !Z.mul_assoc, <- !Z.pow_add_r by lia. f_equal. f_equal. lia. }
    pose proof (pow2_pos L HL) as HPL.
    rewrite Z.pow_add_r in Hhi by lia.
    assert (d * 2 ^ 52 <= a) by nia.
    assert (a < d * 2 ^ 53) by nia.
    split.
    + rewrite <- (rne_exact (2 ^ 52) d Hd). apply rne_mono; lia.
    + rewrite <- (rne_exact (2 ^ 53) d Hd). apply rne_mono; lia.
  - apply Z.ltb_ge in E.
    set (e := L - 1100 - 52) in *.
    assert (HLe : 2 ^ L = 2 ^ e * 2 ^ 52 * 2 ^ 1100).
    { rewrite <- !Z.pow_add_r by lia. f_equal. unfold e. lia. }
    pose proof (pow2_pos e E) as HPe.
    rewrite Z.pow_add_r in Hhi by lia.
    rewrite HLe in *.
    assert (0 < d * 2 ^ e) by nia.
    assert ((d * 2 ^ e) * 2 ^ 52 <= n) by nia.
    assert (n < (d * 2 ^ e) * 2 ^ 53) by nia.
    split.
    + rewrite <- (rne_exact (2 ^ 52) (d * 2 ^ e)) by lia. apply rne_mono; lia.
    + rewrite <- (rne_exact (2 ^ 53) (d * 2 ^ e)) by lia. apply rne_mono; lia.
Qed.

Lemma round64_exponent (n d : Z) : snd (round64 n d) = Z.log2 (n * 2 ^ 1100 / d) - 1100 - 52.
Proof. reflexivity. Qed.

Lemma ether_scaled_pos (b : Z) : 0 < b -> 10 ^ 18 <= b * 2 ^ 1100.
Proof.
  intros Hb. assert (10 ^ 18 <= 2 ^ 1100).
  { change (2 ^ 1100) with (2 ^ 60 * 2 ^ 1040).
    pose proof (pow2_pos 1040 ltac:(lia)).
    assert (10 ^ 18 <= 2 ^ 60) by (vm_compute; discriminate). nia. }
  nia.
Qed.

(** Below [2^-7] every double is below [0.01]. *)
Lemma below_low (b : Z) :
  0 < b -> b * 128 < 10 ^ 18 ->
  double_lt (round64 b (10 ^ 18)) lit_0_01 = true.
Proof.
  intros Hb Hlt.
  pose proof (round64_significand b (10 ^ 18) Hb ltac:(lia) (ether_scaled_pos b Hb)) as Hm.
  pose proof (round64_exponent b (10 ^ 18)) as He.
  destruct (round64 b (10 ^ 18)) as [m e]. cbn [fst snd] in *.
  assert (HL : Z.log2 (b * 2 ^ 1100 / 10 ^ 18) < 1093).
  { apply Z.log2_lt_pow2.
    - apply Z.div_str_pos. split; [lia | apply ether_scaled_pos; lia].
    - apply Z.div_lt_upper_bound; [lia|].
      change (2 ^ 1100) with (128 * 2 ^ 1093).
      pose proof (pow2_pos 1093 ltac:(lia)). nia. }
  change lit_0_01 with (5764607523034235, -59).
  unfold double_lt. rewrite Z.min_l by lia.
  rewrite Z.sub_diag. change (2 ^ 0) with 1.
  apply Z.ltb_lt.
  assert (2 <= 2 ^ (-59 - e)).
  { change 2 with (2 ^ 1) at 1. apply Z.pow_le_mono_r; lia. }
  change (2 ^ 53) with 9007199254740992 in Hm. nia.
Qed.

(** From [2^-6] on no double is below [0.01]. *)
Lemma below_high (b : Z) :
  10 ^ 18 <= b * 64 ->
  double_lt (round64 b (10 ^ 18)) lit_0_01 = false.
Proof.
  intros Hge. assert (Hb : 0 < b) by lia.
  pose proof (round64_significand b (10 ^ 18) Hb ltac:(lia) (ether_scaled_pos b Hb)) as Hm.
  pose proof (round64_exponent b (10 ^ 18)) as He.
  destruct (round64 b (10 ^ 18)) as [m e]. cbn [fst snd] in *.
  assert (HL : 1094 <= Z.log2 (b * 2 ^ 1100 / 10 ^ 18)).
  { apply Z.log2_le_pow2.
    - apply Z.div_str_pos. split; [lia | apply ether_scaled_pos; lia].
    - apply Z.div_le_lower_bound; [lia|].
      change (2 ^ 1100) with (64 * 2 ^ 1094).
      pose proof (pow2_pos 1094 ltac:(lia)). nia. }
  change lit_0_01 with (5764607523034235, -59).
  unfold double_lt. rewrite Z.min_r by lia.
  rewrite Z.sub_diag. change (2 ^ 0) with 1.
  apply Z.ltb_ge.
  assert (2 <= 2 ^ (e - -59)).
  { change 2 with (2 ^ 1) at 1. apply Z.pow_le_mono_r; lia. }
  change (2 ^ 52) with 4503599627370496 in Hm. nia.
Qed.

(** In the binade of [0.01] the comparison is that of the significands. *)
Lemma below_mid (b : Z) :
  10 ^ 18 <= b * 128 -> b * 64 < 10 ^ 18 ->
  double_lt (round64 b (10 ^ 18)) lit_0_01 = (b <? 10 ^ 16).
Proof.
  intros Hlo Hhi. assert (Hb : 0 < b) by lia.
  assert (HL : Z.log2 (b * 2 ^ 1100 / 10 ^ 18) = 1093).
  { apply Z.log2_unique; [lia|]. split.
    - apply Z.div_le_lower_bound; [lia|].
      change (2 ^ 1100) with (128 * 2 ^ 1093).
      pose proof (pow2_pos 1093 ltac:(lia)). nia.
    - apply Z.div_lt_upper_bound; [lia|].
      change (2 ^ 1100) with (64 * 2 ^ 1094). change (1093 + 1) with 1094.
      pose proof (pow2_pos 1094 ltac:(lia)). nia. }
  unfold round64. rewrite HL.
  change (1093 - 1100 - 52) with (-59).
  change (-59 <? 0) with true. cbv iota.
  change lit_0_01 with (5764607523034235, -59).
  unfold double_lt. rewrite Z.min_id, Z.sub_diag. change (2 ^ 0) with 1.
  rewrite !Z.mul_1_r. change (- -59) with 59.
  destruct (b <? 10 ^ 16) eqn:E.
  - apply Z.ltb_lt in E. apply Z.ltb_lt.
    assert (rne (b * 2 ^ 59) (10 ^ 18) <= rne ((10 ^ 16 - 1) * 2 ^ 59) (10 ^ 18)).
    { apply rne_mono; [lia|]. apply Z.mul_le_mono_nonneg_r; lia. }
    assert (rne ((10 ^ 16 - 1) * 2 ^ 59) (10 ^ 18) = 5764607523034234) by (vm_compute; reflexivity).
    lia.
  - apply Z.ltb_ge in E. apply Z.ltb_ge.
    assert (rne (10 ^ 16 * 2 ^ 59) (10 ^ 18) <= rne (b * 2 ^ 59) (10 ^ 18)).
    { apply rne_mono; [lia|]. apply Z.mul_le_mono_nonneg_r; lia. }
    assert (rne (10 ^ 16 * 2 ^ 59) (10 ^ 18) = 5764607523034235) by (vm_compute; reflexivity).
    lia.
Qed.

(** The guard of the domain operations is [balance < 10^16] wei, exactly. *)
Lemma below_minimum_spec (b : Z) : V1.below_minimum b = (b <? 10 ^ 16).
Proof.
  unfold V1.below_minimum, formatEther, parseFloat.
  destruct (b =? 0) eqn:E0.
  - apply Z.eqb_eq in E0. subst b. vm_compute. reflexivity.
  - apply Z.eqb_neq in E0.
    destruct (b <? 0) eqn:En.
    + apply Z.ltb_lt in En.
      pose proof (round64_significand (- b) (10 ^ 18) ltac:(lia) ltac:(lia)
                    (ether_scaled_pos (- b) ltac:(lia))) as Hm.
      destruct (round64 (- b) (10 ^ 18)) as [m e]. cbn [fst] in Hm.
      change lit_0_01 with (5764607523034235, -59).
      unfold double_lt.
      assert (0 < 2 ^ (e - Z.min e (-59))) by (apply pow2_pos; lia).
      assert (0 < 2 ^ (-59 - Z.min e (-59))) by (apply pow2_pos; lia).
      assert (0 < 2 ^ 52) by (apply pow2_pos; lia).
      transitivity true; [apply Z.ltb_lt; nia | symmetry; apply Z.ltb_lt; lia].
    + apply Z.ltb_ge in En.
      destruct (Z_lt_le_dec (b * 128) (10 ^ 18)).
      * rewrite below_low by lia. symmetry. apply Z.ltb_lt. lia.
      * destruct (Z_lt_le_dec (b * 64) (10 ^ 18)).
        -- apply below_mid; lia.
        -- rewrite below_high by lia. symmetry. apply Z.ltb_ge. lia.
Qed.

(** Incrementing a nonce below [2^53] is exact. *)
Lemma number_add_exact (n : Z) : 0 <= n < 2 ^ 53 -> number_add n 1 = n + 1.
Proof.
  intros H. unfold number_add.
  destruct (Z.abs (n + 1) <=? 2 ^ 53) eqn:E; [reflexivity|].
  apply Z.leb_gt in E. lia.
Qed.

(** ** The Privy/viem hook *)

Module V1_Proofs.
Import V1.

Lemma getCurrentGasPrices_returned env r b :
  publicClient_getBlock env = Returned b ->
  getCurrentGasPrices env r =
    (Returned (mkGasParams (bigint_or (baseFeePerGas b) (parseGwei 1 0) * 2)
                           (parseGwei 1 0)),
     r, [EvGetBlock]).
Proof.
  intros H. unfold getCurrentGasPrices, try_catch, bind, await, ret.
  rewrite H. reflexivity.
Qed.

Lemma getCurrentGasPrices_threw env r e :
  publicClient_getBlock env = Threw e ->
  getCurrentGasPrices env r =
    (Returned (mkGasParams (parseGwei 20 1) (parseGwei 10 1)), r, [EvGetBlock]).
Proof.
  intros H. unfold getCurrentGasPrices, try_catch, bind, await, ret.
  rewrite H. reflexivity.
Qed.

Lemma getCurrentGasPrices_total env r :
  exists gp, getCurrentGasPrices env r = (Returned gp, r, [EvGetBlock]).
Proof.
  destruct (publicClient_getBlock env) as [b|e] eqn:H.
  - eexists. apply getCurrentGasPrices_returned. exact H.
  - eexists. eapply getCurrentGasPrices_threw. exact H.
Qed.

Lemma estimateGas_no_address data env r :
  is_empty (userAddress r) = true ->
  estimateGas data env r = (Returned 100000, r, []).
Proof.
  intros H. unfold estimateGas, try_catch, bind, ask, get, throw, ret.
  rewrite H. reflexivity.
Qed.

Lemma estimateGas_returned data env r g :
  is_empty (userAddress r) = false ->
  publicClient_estimateGas env (userAddress r) (GAME_CONTRACT_ADDRESS env) data
    = Returned g ->
  estimateGas data env r =
    (Returned (bigint_div (g * 120) 100), r,
     [EvEstimateGas (userAddress r) (GAME_CONTRACT_ADDRESS env) data]).
Proof.
  intros H G. unfold estimateGas, try_catch, bind, ask, get, throw, ret, await.
  rewrite H, G. reflexivity.
Qed.

Lemma estimateGas_threw data env r e :
  is_empty (userAddress r) = false ->
  publicClient_estimateGas env (userAddress r) (GAME_CONTRACT_ADDRESS env) data
    = Threw e ->
  estimateGas data env r =
    (Returned 100000, r,
     [EvEstimateGas (userAddress r) (GAME_CONTRACT_ADDRESS env) data]).
Proof.
  intros H G. unfold estimateGas, try_catch, bind, ask, get, throw, ret, await.
  rewrite H, G. reflexivity.
Qed.

Lemma estimateGas_total data env r :
  exists g t, estimateGas data env r = (Returned g, r, t) /\
              forallb is_gas_query t = true.
Proof.
  destruct (is_empty (userAddress r)) eqn:H.
  - do 2 eexists. split; [apply estimateGas_no_address; exact H | reflexivity].
  - destruct (publicClient_estimateGas env (userAddress r)
                (GAME_CONTRACT_ADDRESS env) data) as [g|e] eqn:G.
    + do 2 eexists. split; [apply estimateGas_returned; eassumption | reflexivity].
    + do 2 eexists. split; [eapply estimateGas_threw; eassumption | reflexivity].
Qed.

Lemma resolveGasParams_total a env r :
  exists gp t, resolveGasParams a env r = (Returned gp, r, t) /\
               forallb is_gas_query t = true.
Proof.
  unfold resolveGasParams.
  destruct (getCurrentGasPrices_total env r) as [gp Hgp].
  destruct (arg_maxFeePerGas a) as [fee|], (arg_maxPriorityFeePerGas a) as [tip|];
    try (exists gp, [EvGetBlock]; split; [exact Hgp | reflexivity]).
  destruct (negb (fee =? 0) && negb (tip =? 0)).
  - exists (mkGasParams fee tip), []. split; reflexivity.
  - exists gp, [EvGetBlock]. split; [exact Hgp | reflexivity].
Qed.

Lemma resolveGasLimit_total a env r :
  exists g t, resolveGasLimit a env r = (Returned g, r, t) /\
              forallb is_gas_query t = true.
Proof.
  unfold resolveGasLimit.
  destruct (estimateGas_total (data a) env r) as (g & t & Hg & Ht).
  destruct (gas a) as [g0|]; [destruct (g0 =? 0)|];
    try (exists g, t; split; assumption).
  exists g0, []. split; reflexivity.
Qed.

Lemma forallb_app_true {A} (f : A -> bool) l1 l2 :
  forallb f l1 = true -> forallb f l2 = true -> forallb f (l1 ++ l2) = true.
Proof. intros H1 H2. rewrite forallb_app, H1, H2. reflexivity. Qed.

Ltac run_step := cbv [bind ret throw emit try_catch await ask get].
Ltac norm_trace :=
  cbv [failureToast revertedError];
  repeat (rewrite app_nil_r || rewrite <- app_assoc || cbn [app]).
Ltac close_path res tr :=
  run_step; exists res, tr; split; [norm_trace; reflexivity | ].

(** Every run of [sendRawTransactionAndConfirm] follows one of the paths of
    [SendRun] and leaves the refs as they were. *)
Lemma sendRaw_run a env r :
  exists res tr,
    sendRawTransactionAndConfirm a env r = (res, r, tr) /\
    SendRun env r a res tr.
Proof.
  unfold sendRawTransactionAndConfirm, send_try.
  unfold bind at 1. unfold try_catch. unfold bind at 1. unfold bind at 1.
  unfold get at 1.
  destruct (walletClient r) as [provider|] eqn:Hw.
  2:{ close_path (@Threw unit (mkError "Wallet not found."))
                 [failureToast (mkError "Wallet not found.")].
      apply run_no_wallet. exact Hw. }
  destruct (is_empty (userAddress r)) eqn:Ha.
  { close_path (@Threw unit (mkError "Privy user not found."))
               [failureToast (mkError "Privy user not found.")].
    eapply run_no_address; eassumption. }
  destruct (resolveGasParams_total a env r) as (gp & t1 & Hgp & Ht1).
  destruct (resolveGasLimit_total a env r) as (gl & t2 & Hgl & Ht2).
  assert (Hprep : Prepared env r a provider (signedFields env r a gp gl) (t1 ++ t2)).
  { split; [exact Hw|]. split; [exact Ha|]. exists gp, gl, t1, t2.
    repeat split; try assumption. apply forallb_app_true; assumption. }
  set (tx := signedFields env r a gp gl) in *.
  unfold bind at 1. rewrite Hgp.
  unfold bind at 1. rewrite Hgl.
  unfold bind at 1. unfold ask at 1.
  unfold bind at 1. unfold await at 1.
  change (mkTx _ _ _ _ _ _ _) with tx.
  destruct (signTransaction provider tx) as [signed|e] eqn:Hs.
  2:{ close_path (@Threw unit e)
                 ((t1 ++ t2) ++ [EvSignTransaction tx; failureToast e]).
      eapply run_sign_threw; eassumption. }
  unfold bind at 1. unfold await at 1.
  change (mkPost _ _ _ _ _ _) with (rawTransactionRequest env signed).
  set (req := rawTransactionRequest env signed) in *.
  destruct (post env req) as [response|e] eqn:Hp.
  2:{ close_path (@Threw unit e)
                 ((t1 ++ t2) ++ [EvSignTransaction tx; EvPost req; failureToast e]).
      eapply run_post_threw; eassumption. }
  destruct (error response) as [err|] eqn:He.
  { close_path (@Threw unit (mkError (rpc_message err)))
               ((t1 ++ t2) ++ [EvSignTransaction tx; EvPost req;
                               failureToast (mkError (rpc_message err))]).
    eapply run_rpc_error; eassumption. }
  unfold bind at 1. unfold emit at 1.
  unfold bind at 1. unfold await at 1.
  destruct (waitForTransactionReceipt env (result response)) as [receipt|e] eqn:Hr.
  2:{ close_path (@Threw unit e)
                 ((t1 ++ t2) ++ [EvSignTransaction tx; EvPost req;
                                 EvToastInfo (successText a) (result response);
                                 EvWaitReceipt (result response);
                                 failureToast e]).
      eapply run_wait_threw; eassumption. }
  destruct (status receipt) eqn:Hst.
  - close_path (Returned tt)
               ((t1 ++ t2) ++ [EvSignTransaction tx; EvPost req;
                               EvToastInfo (successText a) (result response);
                               EvWaitReceipt (result response);
                               EvToastSuccess (successText a) (result response)]).
    eapply run_confirmed; eassumption.
  - close_path (@Threw unit (revertedError (result response)))
               ((t1 ++ t2) ++ [EvSignTransaction tx; EvPost req;
                               EvToastInfo (successText a) (result response);
                               EvWaitReceipt (result response);
                               failureToast (revertedError (result response))]).
    eapply run_reverted; eassumption.
Qed.


Lemma gas_query_is_network_call l :
  forallb is_gas_query l = true -> forallb is_network_call l = true.
Proof.
  induction l as [|ev l IH]; [reflexivity|].
  cbn [forallb]. intros H. apply andb_true_iff in H as [H1 H2].
  rewrite (IH H2). destruct ev; try discriminate H1; reflexivity.
Qed.

Lemma in_gas_query l ev :
  forallb is_gas_query l = true -> In ev l -> is_gas_query ev = true.
Proof. intros H Hin. rewrite forallb_forall in H. apply H. exact Hin. Qed.

(** Membership in [pre ++ tail] when [pre] holds gas queries only and [ev]
    is not one. *)
Lemma in_after_gas_queries pre tail ev :
  forallb is_gas_query pre = true -> is_gas_query ev = false ->
  In ev (pre ++ tail) -> In ev tail.
Proof.
  intros Hpre Hev Hin. apply in_app_or in Hin as [Hin|Hin]; [|exact Hin].
  rewrite (in_gas_query _ _ Hpre Hin) in Hev. discriminate.
Qed.

Lemma Prepared_pre env r a provider tx pre :
  Prepared env r a provider tx pre -> forallb is_gas_query pre = true.
Proof. intros (_ & _ & gp & gl & t1 & t2 & _ & _ & _ & _ & H). exact H. Qed.

(** Each domain operation either stops before touching the cache, or
    advances it and hands over to [sendRawTransactionAndConfirm]. *)
Lemma run_call_cases c env r :
  (below_minimum (userBalance r) = true /\
   run_call c env r = (Threw insufficientBalance, r, []))
  \/ (below_minimum (userBalance r) = false /\
      exists e, encodeCall env c = Threw e /\
                run_call c env r = (Threw e, r, []))
  \/ (below_minimum (userBalance r) = false /\
      exists data res tr,
        encodeCall env c = Returned data /\
        run_call c env r = (res, advanceCache r c, tr) /\
        SendRun env (advanceCache r c) (sendArgsOf c data (userNonce r)) res tr).
Proof.
  destruct (below_minimum (userBalance r)) eqn:Hb.
  - left. split; [reflexivity|].
    destruct c; cbn [run_call];
      unfold initializeGameTransaction, playNewMoveTransaction;
      unfold bind at 1; unfold get at 1; rewrite Hb; reflexivity.
  - right. destruct (encodeCall env c) as [data|e] eqn:He.
    + right. split; [reflexivity|].
      destruct (sendRaw_run (sendArgsOf c data (userNonce r)) env (advanceCache r c))
        as (res & tr & Hrun & Hpath).
      exists data, res, tr. split; [reflexivity|]. split; [|exact Hpath].
      destruct c; cbn [run_call encodeCall sendArgsOf] in *;
        unfold initializeGameTransaction, playNewMoveTransaction;
        unfold bind at 1; unfold get at 1; rewrite Hb;
        unfold bind at 1; unfold lift at 1; rewrite He;
        unfold set_userNonce, set_userBalance;
        cbv [bind get put ret];
        cbn [userNonce userBalance userAddress walletClient app];
        unfold advanceCache, estimatedCost in Hrun;
        rewrite Hrun; reflexivity.
    + left. split; [reflexivity|]. exists e. split; [reflexivity|].
      destruct c; cbn [run_call encodeCall] in *;
        unfold initializeGameTransaction, playNewMoveTransaction;
        unfold bind at 1; unfold get at 1; rewrite Hb;
        unfold bind at 1; unfold lift at 1; rewrite He; reflexivity.
Qed.

(** *** Gas pricing of the Privy/viem hook *)

(** When the block is read, the fee cap is above the tip exactly when the
    base fee in use exceeds half a gwei. *)
Lemma getCurrentGasPrices_fee_order env r b gp :
  publicClient_getBlock env = Returned b ->
  outcome (getCurrentGasPrices env r) = Returned gp ->
  (maxFeePerGas gp > maxPriorityFeePerGas gp <->
   bigint_or (baseFeePerGas b) (parseGwei 1 0) > 500000000).
Proof.
  intros Hb Hrun. rewrite (getCurrentGasPrices_returned env r b Hb) in Hrun.
  cbn in Hrun. injection Hrun as <-. cbn [maxFeePerGas maxPriorityFeePerGas].
  change (parseGwei 1 0) with 1000000000. lia.
Qed.

(** C1. The fee pair must keep maxFeePerGas strictly above
    maxPriorityFeePerGas; getCurrentGasPrices does not: with a base fee of
    0.001 gwei read from the latest block it returns maxFeePerGas =
    0.002 gwei next to a tip of 1 gwei, the pair of the node error quoted
    in the README ("The provided tip (maxPriorityFeePerGas = 1 gwei)
    cannot be higher than the fee cap (maxFeePerGas = 0.002 gwei)"). *)
Theorem getCurrentGasPrices_fee_not_above_tip env r :
  publicClient_getBlock env = Returned (mkBlock (Some (parseGwei 1 3))) ->
  getCurrentGasPrices env r =
    (Returned (mkGasParams 2000000 1000000000), r, [EvGetBlock]) /\
  forall gp, outcome (getCurrentGasPrices env r) = Returned gp ->
             ~ maxFeePerGas gp > maxPriorityFeePerGas gp.
Proof.
  intros Hb. rewrite (getCurrentGasPrices_returned env r _ Hb).
  split; [reflexivity|].
  intros gp Hgp. cbn in Hgp. injection Hgp as <-.
  cbn. discriminate.
Qed.

Lemma getCurrentGasPrices_fee_not_above_tip_witness :
  publicClient_getBlock env_low_base_fee
    = Returned (mkBlock (Some (parseGwei 1 3))) /\
  getCurrentGasPrices env_low_base_fee sample_refs =
    (Returned (mkGasParams 2000000 1000000000), sample_refs, [EvGetBlock]).
Proof.
  split; [reflexivity|].
  apply (getCurrentGasPrices_fee_not_above_tip env_low_base_fee sample_refs).
  reflexivity.
Defined.

(** The fallback pair of [getCurrentGasPrices] is in order. *)
Lemma fallback_pair_in_order env r e gp :
  publicClient_getBlock env = Threw e ->
  outcome (getCurrentGasPrices env r) = Returned gp ->
  maxFeePerGas gp > maxPriorityFeePerGas gp.
Proof.
  intros Hb Hrun. rewrite (getCurrentGasPrices_threw env r e Hb) in Hrun.
  cbn in Hrun. injection Hrun as <-. reflexivity.
Qed.

(** C7. When getBlock throws, getCurrentGasPrices returns normally, with
    the fixed pair maxFeePerGas = 2 gwei and maxPriorityFeePerGas = 1 gwei,
    whatever the error and the refs; the refs are untouched. *)
Theorem getCurrentGasPrices_fallback env r e :
  publicClient_getBlock env = Threw e ->
  getCurrentGasPrices env r =
    (Returned (mkGasParams 2000000000 1000000000), r, [EvGetBlock]).
Proof. intros H. rewrite (getCurrentGasPrices_threw env r e H). reflexivity. Qed.

Lemma getCurrentGasPrices_fallback_witness :
  publicClient_getBlock env_block_fails = Threw network_down /\
  getCurrentGasPrices env_block_fails sample_refs =
    (Returned (mkGasParams 2000000000 1000000000), sample_refs, [EvGetBlock]).
Proof.
  split; [reflexivity|].
  apply (getCurrentGasPrices_fallback env_block_fails sample_refs network_down).
  reflexivity.
Defined.

(** *** The balance guard *)

(** C4. With a cached balance below 0.01 native-token units (10^16 wei),
    initializeGameTransaction and playNewMoveTransaction throw the
    insufficient-balance error with an empty trace (no gas query, no
    signature, no submission) and leave every ref, the cached nonce and
    balance among them, as it was. *)
Theorem insufficient_balance_stops_early c env r :
  userBalance r < parseEther 1 2 ->
  run_call c env r = (Threw insufficientBalance, r, []) /\
  message insufficientBalance = "Signer has insufficient balance.".
Proof.
  intros Hlow. split; [|reflexivity].
  assert (Hb : below_minimum (userBalance r) = true).
  { rewrite below_minimum_spec. apply Z.ltb_lt.
    change (parseEther 1 2) with (10 ^ 16) in Hlow. exact Hlow. }
  destruct (run_call_cases c env r) as [[_ H]|[[Hf _]|[Hf _]]];
    [exact H | congruence | congruence].
Qed.

Lemma insufficient_balance_stops_early_witness :
  userBalance poor_refs < parseEther 1 2 /\
  run_call sample_start healthy_env poor_refs
    = (Threw insufficientBalance, poor_refs, []) /\
  run_call sample_move healthy_env poor_refs
    = (Threw insufficientBalance, poor_refs, []).
Proof.
  assert (H : userBalance poor_refs < parseEther 1 2) by (vm_compute; reflexivity).
  split; [exact H|]. split.
  - apply (insufficient_balance_stops_early sample_start healthy_env poor_refs H).
  - apply (insufficient_balance_stops_early sample_move healthy_env poor_refs H).
Defined.

(** *** Submission *)

Ltac skip_pre H Hpre :=
  apply in_after_gas_queries in H; [| exact Hpre | reflexivity].

Ltac not_in_tail H :=
  cbv [failureToast] in H; cbn [In] in H;
  repeat (destruct H as [H|H]; [try discriminate H|]); try contradiction.

(** C5. When the response to the posted eth_sendRawTransaction request
    carries an error payload, sendRawTransactionAndConfirm throws an error
    whose message is the payload's message; the trace holds no receipt
    wait, no "Sent transaction" toast and no "Confirmed transaction"
    toast. *)
Theorem rpc_error_payload_surfaces a env r req response err :
  In (EvPost req) (trace (sendRawTransactionAndConfirm a env r)) ->
  post env req = Returned response ->
  error response = Some err ->
  outcome (sendRawTransactionAndConfirm a env r)
    = Threw (mkError (rpc_message err)) /\
  (forall h, ~ In (EvWaitReceipt h)
               (trace (sendRawTransactionAndConfirm a env r))) /\
  (forall text h, ~ In (EvToastInfo text h)
                    (trace (sendRawTransactionAndConfirm a env r))) /\
  (forall text h, ~ In (EvToastSuccess text h)
                    (trace (sendRawTransactionAndConfirm a env r))).
Proof.
  destruct (sendRaw_run a env r) as (res & tr & Hrun & Hpath).
  rewrite Hrun. cbn [outcome trace fst snd].
  intros Hin Hpost Herr.
  destruct Hpath as
    [ Hw | p Hw Ha | p tx pre e Hprep Hs | p tx pre s e Hprep Hs Hp
    | p tx pre s resp err' Hprep Hs Hp He
    | p tx pre s resp e Hprep Hs Hp He Hr
    | p tx pre s resp rc Hprep Hs Hp He Hr Hst
    | p tx pre s resp rc Hprep Hs Hp He Hr Hst ];
    try (pose proof (Prepared_pre _ _ _ _ _ _ Hprep) as Hpre;
         skip_pre Hin Hpre);
    not_in_tail Hin;
    try (injection Hin as <-; congruence).
  injection Hin as <-.
  assert (resp = response) by congruence. subst resp.
  assert (err' = err) by congruence. subst err'.
  split; [reflexivity|].
  repeat split; intros; intro Hin';
    skip_pre Hin' Hpre; not_in_tail Hin'.
Qed.

Lemma rpc_error_payload_surfaces_witness :
  post env_nonce_too_low (rawTransactionRequest env_nonce_too_low "0xf86b")
    = Returned (mkResponse (Some (mkRpcError "nonce too low")) "") /\
  outcome (sendRawTransactionAndConfirm sample_args env_nonce_too_low sample_refs)
    = Threw (mkError "nonce too low").
Proof.
  split; [reflexivity|].
  apply (rpc_error_payload_surfaces sample_args env_nonce_too_low sample_refs
           (rawTransactionRequest env_nonce_too_low "0xf86b")
           (mkResponse (Some (mkRpcError "nonce too low")) "")
           (mkRpcError "nonce too low")).
  - vm_compute. do 3 right. left. reflexivity.
  - reflexivity.
  - reflexivity.
Defined.

Ltac send_paths Hpath :=
  destruct Hpath as
    [ Hw | p Hw Ha | p tx pre e Hprep Hs | p tx pre s e Hprep Hs Hp
    | p tx pre s resp err' Hprep Hs Hp He
    | p tx pre s resp e Hprep Hs Hp He Hr
    | p tx pre s resp rc Hprep Hs Hp He Hr Hst
    | p tx pre s resp rc Hprep Hs Hp He Hr Hst ];
  try pose proof (Prepared_pre _ _ _ _ _ _ Hprep) as Hpre.

(** *** Gas fields supplied by the caller *)

Lemma resolveGasParams_supplied a env r :
  truthy (arg_maxFeePerGas a) && truthy (arg_maxPriorityFeePerGas a) = true ->
  exists fee tip,
    arg_maxFeePerGas a = Some fee /\ arg_maxPriorityFeePerGas a = Some tip /\
    resolveGasParams a env r = (Returned (mkGasParams fee tip), r, []).
Proof.
  unfold resolveGasParams, truthy.
  destruct (arg_maxFeePerGas a) as [fee|]; [|discriminate].
  destruct (arg_maxPriorityFeePerGas a) as [tip|];
    [|rewrite andb_false_r; discriminate].
  intros H. rewrite H. exists fee, tip. repeat split.
Qed.

Lemma resolveGasParams_network a env r :
  truthy (arg_maxFeePerGas a) && truthy (arg_maxPriorityFeePerGas a) = false ->
  resolveGasParams a env r = getCurrentGasPrices env r.
Proof.
  unfold resolveGasParams, truthy.
  destruct (arg_maxFeePerGas a) as [fee|]; [|reflexivity].
  destruct (arg_maxPriorityFeePerGas a) as [tip|]; [|reflexivity].
  intros H. rewrite H. reflexivity.
Qed.

Lemma resolveGasLimit_supplied a env r :
  truthy (gas a) = true ->
  exists g, gas a = Some g /\ resolveGasLimit a env r = (Returned g, r, []).
Proof.
  unfold resolveGasLimit, truthy.
  destruct (gas a) as [g|]; [|discriminate].
  intros H. apply negb_true_iff in H. rewrite H. exists g. split; reflexivity.
Qed.

Lemma resolveGasLimit_network a env r :
  truthy (gas a) = false ->
  resolveGasLimit a env r = estimateGas (data a) env r.
Proof.
  unfold resolveGasLimit, truthy.
  destruct (gas a) as [g|]; [|reflexivity].
  intros H. apply negb_false_iff in H. rewrite H. reflexivity.
Qed.

(** Once wallet and address are present the run reaches the signature. *)
Lemma sendRaw_signs a env r provider :
  walletClient r = Some provider ->
  is_empty (userAddress r) = false ->
  exists tx pre rest,
    Prepared env r a provider tx pre /\
    trace (sendRawTransactionAndConfirm a env r)
      = pre ++ EvSignTransaction tx :: rest.
Proof.
  intros Hw0 Ha0.
  destruct (sendRaw_run a env r) as (res & tr & Hrun & Hpath).
  rewrite Hrun. cbn [trace snd].
  send_paths Hpath; try congruence;
    pose proof (proj1 Hprep) as Hw;
    assert (p = provider) by congruence; subst p;
    exists tx, pre; eexists; (split; [exact Hprep | reflexivity]).
Qed.

(** C10. In sendRawTransactionAndConfirm the signed transaction carries
    the caller's fee pair only when both maxFeePerGas and
    maxPriorityFeePerGas are supplied and non-zero; in every other case
    (one missing, or either 0n) it carries the pair getCurrentGasPrices
    returns.  It carries the caller's gas limit only when that is supplied
    and non-zero; otherwise it carries what estimateGas returns. *)
Theorem caller_gas_fields_need_truthy_values a env r provider :
  walletClient r = Some provider ->
  is_empty (userAddress r) = false ->
  exists tx pre rest,
    trace (sendRawTransactionAndConfirm a env r)
      = pre ++ EvSignTransaction tx :: rest /\
    forallb is_gas_query pre = true /\
    (if truthy (arg_maxFeePerGas a) && truthy (arg_maxPriorityFeePerGas a)
     then arg_maxFeePerGas a = Some (tx_maxFeePerGas tx) /\
          arg_maxPriorityFeePerGas a = Some (tx_maxPriorityFeePerGas tx)
     else outcome (getCurrentGasPrices env r)
            = Returned (mkGasParams (tx_maxFeePerGas tx)
                                    (tx_maxPriorityFeePerGas tx))) /\
    (if truthy (gas a)
     then gas a = Some (tx_gas tx)
     else outcome (estimateGas (data a) env r) = Returned (tx_gas tx)).
Proof.
  intros Hw Ha.
  destruct (sendRaw_signs a env r provider Hw Ha) as (tx & pre & rest & Hprep & Htr).
  exists tx, pre, rest. split; [exact Htr|].
  split; [exact (Prepared_pre _ _ _ _ _ _ Hprep)|].
  destruct Hprep as (_ & _ & gp & gl & t1 & t2 & Hgp & Hgl & -> & _ & _).
  cbn [signedFields tx_maxFeePerGas tx_maxPriorityFeePerGas tx_gas].
  split.
  - destruct (truthy (arg_maxFeePerGas a) && truthy (arg_maxPriorityFeePerGas a))
      eqn:Hfees.
    + destruct (resolveGasParams_supplied a env r Hfees)
        as (fee & tip & Hf & Ht & Hres).
      rewrite Hres in Hgp. injection Hgp as <- _. cbn. split; assumption.
    + rewrite (resolveGasParams_network a env r Hfees) in Hgp.
      rewrite Hgp. destruct gp; reflexivity.
  - destruct (truthy (gas a)) eqn:Hgas.
    + destruct (resolveGasLimit_supplied a env r Hgas) as (g & Hg & Hres).
      rewrite Hres in Hgl. injection Hgl as <- _. exact Hg.
    + rewrite (resolveGasLimit_network a env r Hgas) in Hgl.
      rewrite Hgl. reflexivity.
Qed.

(** A caller passing a zero tip next to a 5 gwei cap, and a zero gas
    limit. *)
Lemma caller_gas_fields_need_truthy_values_witness :
  exists tx pre rest,
    trace (sendRawTransactionAndConfirm
             (mkSendArgs None "0xaa01" 7 (Some 0) (Some 5000000000) (Some 0))
             healthy_env sample_refs)
      = pre ++ EvSignTransaction tx :: rest /\
    tx_maxFeePerGas tx = 6000000000 /\
    tx_maxPriorityFeePerGas tx = 1000000000 /\
    tx_gas tx = 114518.
Proof.
  destruct (caller_gas_fields_need_truthy_values
              (mkSendArgs None "0xaa01" 7 (Some 0) (Some 5000000000) (Some 0))
              healthy_env sample_refs sample_provider eq_refl eq_refl)
    as (tx & pre & rest & Htr & _ & Hfee & Hgas).
  exists tx, pre, rest. split; [exact Htr|].
  cbn in Hfee, Hgas.
  injection Hfee as <- <-. injection Hgas as <-.
  repeat split.
Defined.

(** *** The domain operations and the cached account state *)



(** C9. When the submission of a domain operation fails (the error is
    thrown after the failure toast), the cached nonce stays advanced by
    one and the cached balance stays lowered by the estimated cost,
    0.0075 native-token units for initialize and 0.005 for a move;
    nothing is rolled back, and the address and the wallet client are as
    before. *)
Theorem failed_submission_keeps_optimistic_update c env r e r' tr :
  0 <= userNonce r < 2 ^ 53 ->
  run_call c env r = (Threw e, r', tr) ->
  In (failureToast e) tr ->
  userNonce r' = userNonce r + 1 /\
  userBalance r' =
    userBalance r - match c with
                    | InitializeGame _ _ _ => 7500000000000000
                    | PlayNewMove _ _ _ _ => 5000000000000000
                    end /\
  userAddress r' = userAddress r /\
  walletClient r' = walletClient r.
Proof.
  intros Hn Hrun Hin.
  destruct (run_call_cases c env r)
    as [[_ H]|[(_ & e0 & _ & H)|(_ & data & res & tr0 & _ & H & _)]];
    rewrite H in Hrun; injection Hrun as Hres Hr Htr; subst r' tr;
    try contradiction.
  cbn [advanceCache userNonce userBalance userAddress walletClient].
  rewrite (number_add_exact _ Hn).
  destruct c; repeat split.
Qed.

Lemma failed_submission_keeps_optimistic_update_witness :
  outcome (run_call sample_start env_reverted sample_refs)
    = Threw (revertedError "0xabc") /\
  userNonce (refs_after (run_call sample_start env_reverted sample_refs)) = 8 /\
  userBalance (refs_after (run_call sample_start env_reverted sample_refs))
    = 50000000000000000 - 7500000000000000.
Proof.
  split; [reflexivity|].
  pose proof (failed_submission_keeps_optimistic_update
                sample_start env_reverted sample_refs
                (revertedError "0xabc")
                (refs_after (run_call sample_start env_reverted sample_refs))
                (trace (run_call sample_start env_reverted sample_refs))) as H.
  destruct H as (Hnonce & Hbal & _).
  - cbn; lia.
  - reflexivity.
  - vm_compute. do 6 right. left. reflexivity.
  - split; [exact Hnonce | exact Hbal].
Defined.

(** The operations change no ref but the cached nonce and balance, on any
    run. *)
Lemma run_call_frame c env r :
  userAddress (refs_after (run_call c env r)) = userAddress r /\
  walletClient (refs_after (run_call c env r)) = walletClient r.
Proof.
  destruct (run_call_cases c env r)
    as [[_ H]|[(_ & e0 & _ & H)|(_ & data & res & tr0 & _ & H & _)]];
    rewrite H; split; reflexivity.
Qed.

End V1_Proofs.

(** ** The wagmi hook *)

Module V2_Proofs.
Import V2.

(** The tip is one of two positive constants. *)
Lemma priority_fee_positive (baseFee : Z) :
  0 < (if baseFee <? parseEther 1 3 then parseEther 5 4 else parseEther 2 3).
Proof.
  destruct (baseFee <? parseEther 1 3); vm_compute; reflexivity.
Qed.

(** [getOptimizedGasConfig] in one equation: the outer [catch] is never
    entered, the limit is [gasLimitFor], the tip depends on the base fee
    and the cap follows the rule of the specification. *)
Lemma getOptimizedGasConfig_unfold publicClient contractAddress functionName
    args account value :
  let baseFee := fst (networkGas publicClient) in
  let gasPrice := snd (networkGas publicClient) in
  let tip :=
    if baseFee <? parseEther 1 3 then parseEther 5 4 else parseEther 2 3 in
  getOptimizedGasConfig publicClient contractAddress functionName args
                        account value
  = mkGasConfig
      (gasLimitFor publicClient contractAddress functionName args account value)
      (spec_maxFee baseFee gasPrice tip) tip.
Proof.
  unfold getOptimizedGasConfig, getOptimizedGasConfig_try.
  destruct (networkGas publicClient) as [baseFee gasPrice]. cbn [fst snd].
  set (tip := if baseFee <? parseEther 1 3 then parseEther 5 4 else parseEther 2 3).
  set (limit := gasLimitFor _ _ _ _ _ _).
  unfold spec_maxFee.
  destruct (baseFee * 2 + tip >? gasPrice + tip) eqn:Hmax.
  - rewrite Z.gtb_ltb in Hmax. apply Z.ltb_lt in Hmax.
    rewrite Z.max_l by lia.
    destruct (tip >=? baseFee * 2 + tip) eqn:Hchk.
    + rewrite Z.geb_leb in Hchk. apply Z.leb_le in Hchk.
      assert (Hlt : (tip <? baseFee * 2 + tip) = false) by (apply Z.ltb_ge; lia).
      rewrite Hlt. reflexivity.
    + rewrite Z.geb_leb in Hchk. apply Z.leb_gt in Hchk.
      assert (Hlt : (tip <? baseFee * 2 + tip) = true) by (apply Z.ltb_lt; lia).
      rewrite Hlt. reflexivity.
  - rewrite Z.gtb_ltb in Hmax. apply Z.ltb_ge in Hmax.
    rewrite Z.max_r by lia.
    destruct (tip >=? gasPrice + tip) eqn:Hchk.
    + rewrite Z.geb_leb in Hchk. apply Z.leb_le in Hchk.
      assert (Hlt : (tip <? gasPrice + tip) = false) by (apply Z.ltb_ge; lia).
      rewrite Hlt. reflexivity.
    + rewrite Z.geb_leb in Hchk. apply Z.leb_gt in Hchk.
      assert (Hlt : (tip <? gasPrice + tip) = true) by (apply Z.ltb_lt; lia).
      rewrite Hlt. reflexivity.
Qed.

Lemma spec_maxFee_above_tip (baseFee gasPrice tip : Z) :
  0 < tip -> tip < spec_maxFee baseFee gasPrice tip.
Proof.
  intros Htip. unfold spec_maxFee.
  destruct (tip <? Z.max (baseFee * 2 + tip) (gasPrice + tip)) eqn:H.
  - apply Z.ltb_lt in H. exact H.
  - lia.
Qed.

(** [getOptimizedGasConfig] keeps the cap strictly above the tip, for every
    client, every answer of the node and every function name. *)
Lemma getOptimizedGasConfig_fee_order publicClient contractAddress functionName
    args account value :
  let cfg := getOptimizedGasConfig publicClient contractAddress functionName
                                   args account value in
  maxFeePerGas cfg > maxPriorityFeePerGas cfg.
Proof.
  cbv zeta. rewrite getOptimizedGasConfig_unfold.
  cbn [maxFeePerGas maxPriorityFeePerGas].
  apply Z.lt_gt. apply spec_maxFee_above_tip. apply priority_fee_positive.
Qed.

(** So does the pair of the outer [catch]. *)
Lemma ultraConservativeFallback_fee_order functionName :
  maxFeePerGas (ultraConservativeFallback functionName)
  > maxPriorityFeePerGas (ultraConservativeFallback functionName).
Proof. reflexivity. Qed.

(** When the estimate throws, the limit is the fallback of the function. *)
Lemma gasLimitFor_fallback publicClient contractAddress functionName args
    account value e :
  estimateWithBuffer publicClient contractAddress functionName args account value
    = Threw e ->
  gas (getOptimizedGasConfig publicClient contractAddress functionName args
                             account value)
  = fallbackGasLimit functionName.
Proof.
  intros H. rewrite getOptimizedGasConfig_unfold. cbn [gas].
  unfold gasLimitFor. rewrite H. reflexivity.
Qed.

End V2_Proofs.

(** ** The two hooks side by side *)

(** With a base fee of 10 gwei the Privy/viem hook returns a cap of 20 gwei
    next to its 1 gwei tip; the rule of the specification yields at least
    21 gwei there, whatever the current gas price. *)
Lemma getCurrentGasPrices_is_not_the_max_rule :
  V1.outcome (V1.getCurrentGasPrices V1.env_high_base_fee V1.sample_refs)
    = Returned (V1.mkGasParams 20000000000 1000000000) /\
  ~ exists gasPrice,
      20000000000 = spec_maxFee 10000000000 gasPrice 1000000000.
Proof.
  split; [reflexivity|].
  intros [gasPrice H]. unfold spec_maxFee in H.
  destruct (1000000000 <?
            Z.max (10000000000 * 2 + 1000000000) (gasPrice + 1000000000)); lia.
Qed.

(** C2, amended. getOptimizedGasConfig computes maxFeePerGas as the larger
    of baseFee * 2 + priorityFee and gasPrice + priorityFee and, when that
    is not above the priority fee, as priorityFee * 3 instead; its
    priority fee is 0.0005 ether-units below a base fee of 0.001 and 0.002
    otherwise.  getCurrentGasPrices, when the block is read, returns
    maxFeePerGas = baseFee * 2 next to a priority fee of 1 gwei. *)
Theorem fee_rule_of_each_hook :
  (forall publicClient contractAddress functionName args account value,
     let baseFee := fst (V2.networkGas publicClient) in
     let gasPrice := snd (V2.networkGas publicClient) in
     let cfg := V2.getOptimizedGasConfig publicClient contractAddress
                  functionName args account value in
     V2.maxPriorityFeePerGas cfg
       = (if baseFee <? 1000000000000000
          then 500000000000000 else 2000000000000000) /\
     V2.maxFeePerGas cfg
       = spec_maxFee baseFee gasPrice (V2.maxPriorityFeePerGas cfg)) /\
  (forall env r block,
     V1.publicClient_getBlock env = Returned block ->
     V1.outcome (V1.getCurrentGasPrices env r)
       = Returned (V1.mkGasParams
                     (bigint_or (V1.baseFeePerGas block) 1000000000 * 2)
                     1000000000)).
Proof.
  split.
  - intros publicClient contractAddress functionName args account value.
    cbv zeta. rewrite V2_Proofs.getOptimizedGasConfig_unfold.
    cbn [V2.maxPriorityFeePerGas V2.maxFeePerGas]. split; reflexivity.
  - intros env r block Hb.
    rewrite (V1_Proofs.getCurrentGasPrices_returned env r block Hb).
    reflexivity.
Qed.

Lemma fee_rule_of_each_hook_witness :
  V2.getOptimizedGasConfig (Some V2.client_up) "0x2048" "play" [3] "0x1111" None
    = V2.mkGasConfig 119290 500002400000000 500000000000000 /\
  V1.outcome (V1.getCurrentGasPrices V1.healthy_env V1.sample_refs)
    = Returned (V1.mkGasParams 6000000000 1000000000).
Proof.
  split; [reflexivity|].
  apply (proj2 fee_rule_of_each_hook V1.healthy_env V1.sample_refs
               (V1.mkBlock (Some 3000000000))).
  reflexivity.
Defined.

(** With the node refusing the estimate, the Privy/viem hook signs the
    game-initialization transaction with a gas limit of 100000. *)
Lemma estimateGas_fallback_ignores_operation :
  V1.encodeCall V1.env_estimate_fails V1.sample_start = Returned "0xaa01" /\
  V1.publicClient_estimateGas V1.env_estimate_fails "0x1111" "0x2048" "0xaa01"
    = Threw V1.network_down /\
  V1.outcome (V1.estimateGas "0xaa01" V1.env_estimate_fails V1.sample_refs)
    = Returned 100000 /\
  V1.outcome (V1.estimateGas "0xaa01" V1.env_estimate_fails V1.sample_refs)
    <> Returned 150000 /\
  exists tx,
    In (V1.EvSignTransaction tx)
       (V1.trace (V1.run_call V1.sample_start V1.env_estimate_fails
                              V1.sample_refs)) /\
    V1.tx_gas tx = 100000.
Proof.
  repeat split; try reflexivity.
  - discriminate.
  - eexists. split.
    + vm_compute. do 2 right. left. reflexivity.
    + reflexivity.
Qed.

(** C3, amended. When the gas estimate throws, getOptimizedGasConfig
    returns a gas limit of 150000 for "startGame" and 100000 for "play"
    (and for any other function name), while estimateGas of the
    Privy/viem hook returns 100000 whatever the call data. *)
Theorem estimation_fallback_of_each_hook :
  (forall publicClient contractAddress functionName args account value e,
     V2.estimateWithBuffer publicClient contractAddress functionName args
                           account value = Threw e ->
     V2.gas (V2.getOptimizedGasConfig publicClient contractAddress functionName
                                      args account value)
       = (if String.eqb functionName "startGame" then 150000 else 100000)) /\
  (forall data env r e,
     V1.publicClient_estimateGas env (V1.userAddress r)
         (V1.GAME_CONTRACT_ADDRESS env) data = Threw e ->
     V1.outcome (V1.estimateGas data env r) = Returned 100000).
Proof.
  split.
  - intros publicClient contractAddress functionName args account value e H.
    rewrite (V2_Proofs.gasLimitFor_fallback _ _ _ _ _ _ e H). reflexivity.
  - intros data env r e H.
    destruct (V1.is_empty (V1.userAddress r)) eqn:Ha.
    + rewrite (V1_Proofs.estimateGas_no_address data env r Ha). reflexivity.
    + rewrite (V1_Proofs.estimateGas_threw data env r e Ha H). reflexivity.
Qed.

Lemma estimation_fallback_of_each_hook_witness :
  V2.gas (V2.getOptimizedGasConfig (Some V2.client_down) "0x2048" "startGame"
                                   [] "0x1111" (Some 1000000000000000))
    = 150000 /\
  V2.gas (V2.getOptimizedGasConfig (Some V2.client_down) "0x2048" "play"
                                   [3] "0x1111" None)
    = 100000 /\
  V1.outcome (V1.estimateGas "0xaa01" V1.env_estimate_fails V1.sample_refs)
    = Returned 100000.
Proof.
  split; [|split].
  - apply (proj1 estimation_fallback_of_each_hook (Some V2.client_down)
                 "0x2048" "startGame" [] "0x1111" (Some 1000000000000000)
                 (mkError "HTTP request failed.")).
    reflexivity.
  - apply (proj1 estimation_fallback_of_each_hook (Some V2.client_down)
                 "0x2048" "play" [3] "0x1111" None
                 (mkError "HTTP request failed.")).
    reflexivity.
  - apply (proj2 estimation_fallback_of_each_hook "0xaa01"
                 V1.env_estimate_fails V1.sample_refs V1.network_down).
    reflexivity.
Defined.

(** ** Further properties of the Privy/viem hook *)

Module V1_More.
Import V1 V1_Proofs V1_Session.

(** *** sendRawTransactionAndConfirm *)

Lemma sendRaw_refs_unchanged a env r :
  snd (fst (sendRawTransactionAndConfirm a env r)) = r.
Proof.
  destruct (sendRaw_run a env r) as (res & tr & Hrun & _).
  rewrite Hrun. reflexivity.
Qed.

(** X1. sendRawTransactionAndConfirm reads the refs and never writes them:
    nonce, balance, address and wallet client are the same after any run,
    successful or not. *)
Theorem sendRaw_leaves_refs a env r :
  refs_after (sendRawTransactionAndConfirm a env r) = r.
Proof.
  destruct (sendRaw_run a env r) as (res & tr & Hrun & _).
  rewrite Hrun. reflexivity.
Qed.

(** X2. Nothing is posted unsigned: a posted request is the
    eth_sendRawTransaction call whose single parameter is the payload the
    cached wallet client returned for the transaction signed just
    before, sent with 3 retries 2000 ms apart and without credentials;
    only gas queries precede the signature. *)
Theorem post_follows_signature a env r req :
  In (EvPost req) (trace (sendRawTransactionAndConfirm a env r)) ->
  exists provider tx signed before rest,
    walletClient r = Some provider /\
    signTransaction provider tx = Returned signed /\
    req = mkPost (rpcUrl env) "eth_sendRawTransaction" [signed] false 3 2000 /\
    trace (sendRawTransactionAndConfirm a env r)
      = before ++ EvSignTransaction tx :: EvPost req :: rest /\
    forallb is_gas_query before = true.
Proof.
  destruct (sendRaw_run a env r) as (res & tr & Hrun & Hpath).
  rewrite Hrun. cbn [trace snd]. intros Hin.
  send_paths Hpath; try skip_pre Hin Hpre; not_in_tail Hin;
    injection Hin as <-;
    exists p, tx, s, pre; eexists;
    (split; [exact (proj1 Hprep)|]);
    (split; [exact Hs|]); (split; [reflexivity|]);
    (split; [reflexivity | exact Hpre]).
Qed.

Lemma post_follows_signature_witness :
  exists provider tx signed before rest,
    walletClient sample_refs = Some provider /\
    signTransaction provider tx = Returned signed /\
    rawTransactionRequest healthy_env "0xf86b"
      = mkPost (rpcUrl healthy_env) "eth_sendRawTransaction" [signed]
               false 3 2000 /\
    trace (sendRawTransactionAndConfirm sample_args healthy_env sample_refs)
      = before ++ EvSignTransaction tx
               :: EvPost (rawTransactionRequest healthy_env "0xf86b") :: rest /\
    forallb is_gas_query before = true.
Proof.
  apply (post_follows_signature sample_args healthy_env sample_refs
           (rawTransactionRequest healthy_env "0xf86b")).
  vm_compute. do 3 right. left. reflexivity.
Defined.

(** X3. Without a wallet client the call throws "Wallet not found.", and
    with a wallet client but an empty cached address it throws "Privy
    user not found."; in both cases the failure toast is the only event,
    so neither the node nor the wallet is contacted.  The wallet is
    checked first. *)
Theorem missing_wallet_or_address a env r :
  walletClient r = None \/ userAddress r = "" ->
  exists e,
    sendRawTransactionAndConfirm a env r
      = (Threw e, r, [EvToastError (String.append "Error: " (message e))]) /\
    message e = match walletClient r with
                | None => "Wallet not found."
                | Some _ => "Privy user not found."
                end.
Proof.
  intros Hmiss.
  destruct (sendRaw_run a env r) as (res & tr & Hrun & Hpath).
  rewrite Hrun.
  send_paths Hpath;
    try (destruct Hprep as (Hw & Ha & _); exfalso;
         destruct Hmiss as [Hnone|Hempty];
         [congruence | rewrite Hempty in Ha; cbn in Ha; discriminate Ha]).
  - eexists. split; [reflexivity|]. rewrite Hw. reflexivity.
  - eexists. split; [reflexivity|]. rewrite Hw. reflexivity.
Qed.

Lemma missing_wallet_or_address_witness :
  (exists e,
     sendRawTransactionAndConfirm sample_args healthy_env no_wallet_refs
       = (Threw e, no_wallet_refs,
          [EvToastError (String.append "Error: " (message e))]) /\
     message e = "Wallet not found.") /\
  (exists e,
     sendRawTransactionAndConfirm sample_args healthy_env no_address_refs
       = (Threw e, no_address_refs,
          [EvToastError (String.append "Error: " (message e))]) /\
     message e = "Privy user not found.").
Proof.
  split.
  - apply (missing_wallet_or_address sample_args healthy_env no_wallet_refs).
    left. reflexivity.
  - apply (missing_wallet_or_address sample_args healthy_env no_address_refs).
    right. reflexivity.
Defined.

(** X4. The "Sent transaction" toast is shown only for a hash the RPC
    endpoint returned: its hash is the result of a response without error
    payload to the posted request, its text is the caller's successText,
    and the receipt wait that follows it is for the same hash. *)
Theorem sent_toast_shows_returned_hash a env r text hash :
  In (EvToastInfo text hash) (trace (sendRawTransactionAndConfirm a env r)) ->
  exists req response before rest,
    post env req = Returned response /\
    error response = None /\
    result response = hash /\
    text = successText a /\
    trace (sendRawTransactionAndConfirm a env r)
      = before ++ EvPost req :: EvToastInfo text hash
               :: EvWaitReceipt hash :: rest.
Proof.
  destruct (sendRaw_run a env r) as (res & tr & Hrun & Hpath).
  rewrite Hrun. cbn [trace snd]. intros Hin.
  send_paths Hpath; try skip_pre Hin Hpre; not_in_tail Hin;
    injection Hin as <- <-;
    exists (rawTransactionRequest env s), resp,
           (pre ++ [EvSignTransaction tx]); eexists;
    (split; [exact Hp|]); (split; [exact He|]);
    (split; [reflexivity|]); (split; [reflexivity|]);
    rewrite <- app_assoc; reflexivity.
Qed.

Lemma sent_toast_shows_returned_hash_witness :
  exists req response before rest,
    post env_reverted req = Returned response /\
    error response = None /\
    result response = "0xabc" /\
    Some "Started game!" = successText sample_args /\
    trace (sendRawTransactionAndConfirm sample_args env_reverted sample_refs)
      = before ++ EvPost req :: EvToastInfo (Some "Started game!") "0xabc"
               :: EvWaitReceipt "0xabc" :: rest.
Proof.
  apply (sent_toast_shows_returned_hash sample_args env_reverted sample_refs
           (Some "Started game!") "0xabc").
  vm_compute. do 4 right. left. reflexivity.
Defined.

(** With wallet and address present, the trace opens with the events of
    the two resolution steps followed by the signature over their
    results. *)
Lemma sendRaw_opening a env r provider gasParams gasLimit t1 t2 :
  walletClient r = Some provider ->
  is_empty (userAddress r) = false ->
  resolveGasParams a env r = (Returned gasParams, r, t1) ->
  resolveGasLimit a env r = (Returned gasLimit, r, t2) ->
  exists rest,
    trace (sendRawTransactionAndConfirm a env r)
      = t1 ++ t2 ++ EvSignTransaction (signedFields env r a gasParams gasLimit)
           :: rest /\
    forallb (fun ev => negb (is_gas_query ev)) rest = true.
Proof.
  intros Hw0 Ha0 Hgp0 Hgl0.
  destruct (sendRaw_run a env r) as (res & tr & Hrun & Hpath).
  rewrite Hrun. cbn [trace snd].
  send_paths Hpath; try congruence;
    destruct Hprep as (_ & _ & gp & gl & u1 & u2 & Hgp & Hgl & -> & -> & _);
    rewrite Hgp0 in Hgp; injection Hgp as <- <-;
    rewrite Hgl0 in Hgl; injection Hgl as <- <-;
    rewrite <- app_assoc; eexists; (split; [reflexivity|]); reflexivity.
Qed.

(** X5. When the caller supplies non-zero maxFeePerGas,
    maxPriorityFeePerGas and gas, the node is asked neither for the block
    nor for an estimate: the signature over exactly the supplied values
    is the first event, and no gas query follows it either. *)
Theorem supplied_gas_fields_skip_node a env r provider fee tip limit :
  walletClient r = Some provider ->
  is_empty (userAddress r) = false ->
  arg_maxFeePerGas a = Some fee -> fee <> 0 ->
  arg_maxPriorityFeePerGas a = Some tip -> tip <> 0 ->
  gas a = Some limit -> limit <> 0 ->
  exists rest,
    trace (sendRawTransactionAndConfirm a env r)
      = EvSignTransaction
          (mkTx (GAME_CONTRACT_ADDRESS env) (userAddress r) (data a) (nonce a)
                limit fee tip) :: rest /\
    forallb (fun ev => negb (is_gas_query ev)) rest = true.
Proof.
  intros Hw Ha Hfee Hf0 Htip Ht0 Hgas Hl0.
  assert (Hgp : resolveGasParams a env r = (Returned (mkGasParams fee tip), r, [])).
  { unfold resolveGasParams. rewrite Hfee, Htip.
    apply Z.eqb_neq in Hf0, Ht0. rewrite Hf0, Ht0. reflexivity. }
  assert (Hgl : resolveGasLimit a env r = (Returned limit, r, [])).
  { unfold resolveGasLimit. rewrite Hgas.
    apply Z.eqb_neq in Hl0. rewrite Hl0. reflexivity. }
  destruct (sendRaw_opening a env r provider _ _ _ _ Hw Ha Hgp Hgl)
    as (rest & Htr & Hrest).
  exists rest. split; [exact Htr | exact Hrest].
Qed.

Lemma supplied_gas_fields_skip_node_witness :
  exists rest,
    trace (sendRawTransactionAndConfirm full_args env_reads_fail sample_refs)
      = EvSignTransaction
          (mkTx "0x2048" "0x1111" "0xaa01" 7 120000 5000000000 1500000000)
        :: rest /\
    forallb (fun ev => negb (is_gas_query ev)) rest = true.
Proof.
  apply (supplied_gas_fields_skip_node full_args env_reads_fail sample_refs
           sample_provider 5000000000 1500000000 120000);
    try reflexivity; discriminate.
Defined.

(** X6. A node that can serve neither the block nor the estimate does not
    stop a submission: with no usable gas fields from the caller, the
    transaction is signed with the fallback values, gas 100000,
    maxFeePerGas 2 gwei and maxPriorityFeePerGas 1 gwei. *)
Theorem failed_reads_fall_back_and_sign a env r provider e1 e2 :
  walletClient r = Some provider ->
  is_empty (userAddress r) = false ->
  truthy (arg_maxFeePerGas a) && truthy (arg_maxPriorityFeePerGas a) = false ->
  truthy (gas a) = false ->
  publicClient_getBlock env = Threw e1 ->
  publicClient_estimateGas env (userAddress r) (GAME_CONTRACT_ADDRESS env)
      (data a) = Threw e2 ->
  exists rest,
    trace (sendRawTransactionAndConfirm a env r)
      = EvGetBlock
        :: EvEstimateGas (userAddress r) (GAME_CONTRACT_ADDRESS env) (data a)
        :: EvSignTransaction
             (mkTx (GAME_CONTRACT_ADDRESS env) (userAddress r) (data a)
                   (nonce a) 100000 2000000000 1000000000)
        :: rest.
Proof.
  intros Hw Ha Hfees Hgas Hb Hest.
  pose proof (resolveGasParams_network a env r Hfees) as Hgp.
  rewrite (getCurrentGasPrices_threw env r e1 Hb) in Hgp.
  pose proof (resolveGasLimit_network a env r Hgas) as Hgl.
  rewrite (estimateGas_threw (data a) env r e2 Ha Hest) in Hgl.
  destruct (sendRaw_opening a env r provider _ _ _ _ Hw Ha Hgp Hgl)
    as (rest & Htr & _).
  exists rest. exact Htr.
Qed.

Lemma failed_reads_fall_back_and_sign_witness :
  exists rest,
    trace (sendRawTransactionAndConfirm sample_args env_reads_fail sample_refs)
      = EvGetBlock
        :: EvEstimateGas "0x1111" "0x2048" "0xaa01"
        :: EvSignTransaction
             (mkTx "0x2048" "0x1111" "0xaa01" 7 100000 2000000000 1000000000)
        :: rest.
Proof.
  apply (failed_reads_fall_back_and_sign sample_args env_reads_fail sample_refs
           sample_provider network_down network_down);
    reflexivity.
Defined.

(** *** estimateGas and getCurrentGasPrices *)

(** X7. For a non-negative estimate [g] from the node, estimateGas
    returns floor (1.2 * g): at least [g], at most a fifth more, and
    with no margin at all for estimates below 5. *)
Theorem estimateGas_buffer data env r g :
  is_empty (userAddress r) = false ->
  publicClient_estimateGas env (userAddress r) (GAME_CONTRACT_ADDRESS env) data
    = Returned g ->
  0 <= g ->
  exists limit,
    outcome (estimateGas data env r) = Returned limit /\
    g <= limit /\
    5 * limit <= 6 * g < 5 * limit + 5 /\
    (g < 5 -> limit = g).
Proof.
  intros Ha Hest Hg.
  rewrite (estimateGas_returned data env r g Ha Hest). cbn [outcome fst].
  exists (bigint_div (g * 120) 100). split; [reflexivity|].
  unfold bigint_div. rewrite Z.quot_div_nonneg by lia.
  pose proof (Z.div_mod (g * 120) 100 ltac:(lia)) as E.
  pose proof (Z.mod_pos_bound (g * 120) 100 ltac:(lia)) as R.
  split; [lia|]. split; [lia|]. intros Hsmall. lia.
Qed.

Lemma estimateGas_buffer_witness :
  exists limit,
    outcome (estimateGas "0xaa01" healthy_env sample_refs) = Returned limit /\
    95432 <= limit /\
    5 * limit <= 6 * 95432 < 5 * limit + 5 /\
    (95432 < 5 -> limit = 95432).
Proof.
  apply (estimateGas_buffer "0xaa01" healthy_env sample_refs 95432);
    [reflexivity | reflexivity | lia].
Defined.

(** X8. A block without a base fee, or with a base fee of 0n, is priced
    as if the base fee were 1 gwei: getCurrentGasPrices returns the same
    pair as when the block cannot be read, 2 gwei and 1 gwei. *)
Theorem missing_base_fee_priced_as_one_gwei env r block :
  publicClient_getBlock env = Returned block ->
  baseFeePerGas block = None \/ baseFeePerGas block = Some 0 ->
  outcome (getCurrentGasPrices env r)
    = Returned (mkGasParams 2000000000 1000000000).
Proof.
  intros Hb Hfee.
  rewrite (getCurrentGasPrices_returned env r block Hb). cbn [outcome fst].
  destruct Hfee as [-> | ->]; reflexivity.
Qed.

Lemma missing_base_fee_priced_as_one_gwei_witness :
  outcome (getCurrentGasPrices
             (sample_env (Returned (mkBlock None)) (Returned 95432)
                (Returned (mkResponse None "0xabc"))
                (Returned (mkReceipt success)))
             sample_refs)
  = Returned (mkGasParams 2000000000 1000000000).
Proof.
  apply (missing_base_fee_priced_as_one_gwei _ sample_refs (mkBlock None)).
  - reflexivity.
  - left. reflexivity.
Defined.

(** *** The domain operations *)

(** A signature in the trace stands after the events of a completed
    resolution of the gas fields. *)
Lemma sign_event_prepared a env r fields :
  In (EvSignTransaction fields)
     (trace (sendRawTransactionAndConfirm a env r)) ->
  exists provider pre rest,
    Prepared env r a provider fields pre /\
    trace (sendRawTransactionAndConfirm a env r)
      = pre ++ EvSignTransaction fields :: rest.
Proof.
  destruct (sendRaw_run a env r) as (res & tr & Hrun & Hpath).
  rewrite Hrun. cbn [trace snd]. intros Hin.
  send_paths Hpath; try skip_pre Hin Hpre; not_in_tail Hin;
    injection Hin as <-;
    exists p, pre; eexists; (split; [exact Hprep | reflexivity]).
Qed.

Lemma sendArgsOf_fields c data n :
  V1.data (sendArgsOf c data n) = data /\
  nonce (sendArgsOf c data n) = n /\
  gas (sendArgsOf c data n) = None /\
  arg_maxFeePerGas (sendArgsOf c data n) = None /\
  arg_maxPriorityFeePerGas (sendArgsOf c data n) = None.
Proof. destruct c; repeat split. Qed.

(** Past the guard and the encoder, a domain operation is the submission
    of its arguments from the advanced cache. *)
Lemma run_call_submits c env r data :
  below_minimum (userBalance r) = false ->
  encodeCall env c = Returned data ->
  run_call c env r
    = sendRawTransactionAndConfirm (sendArgsOf c data (userNonce r)) env
                                   (advanceCache r c).
Proof.
  intros Hb He.
  destruct (sendRaw_run (sendArgsOf c data (userNonce r)) env (advanceCache r c))
    as (res & tr & Hrun & _).
  rewrite Hrun.
  destruct c; cbn [run_call encodeCall sendArgsOf] in *;
    unfold initializeGameTransaction, playNewMoveTransaction;
    unfold bind at 1; unfold get at 1; rewrite Hb;
    unfold bind at 1; unfold lift at 1; rewrite He;
    unfold set_userNonce, set_userBalance;
    cbv [bind get put ret];
    cbn [userNonce userBalance userAddress walletClient app];
    unfold advanceCache, estimatedCost in Hrun;
    rewrite Hrun; reflexivity.
Qed.

(** A signature made by a domain operation: the call data was encoded,
    the cache was advanced, and the gas fields were resolved from the
    node for the operation's arguments. *)
Lemma domain_sign_event c env r tx :
  In (EvSignTransaction tx) (trace (run_call c env r)) ->
  exists data provider gasParams gasLimit rest,
    encodeCall env c = Returned data /\
    refs_after (run_call c env r) = advanceCache r c /\
    is_empty (userAddress r) = false /\
    walletClient r = Some provider /\
    getCurrentGasPrices env (advanceCache r c)
      = (Returned gasParams, advanceCache r c, [EvGetBlock]) /\
    outcome (estimateGas data env (advanceCache r c)) = Returned gasLimit /\
    tx = mkTx (GAME_CONTRACT_ADDRESS env) (userAddress r) data (userNonce r)
              gasLimit (maxFeePerGas gasParams)
              (maxPriorityFeePerGas gasParams) /\
    trace (run_call c env r)
      = EvGetBlock
        :: EvEstimateGas (userAddress r) (GAME_CONTRACT_ADDRESS env) data
        :: EvSignTransaction tx :: rest.
Proof.
  intros Hin.
  destruct (run_call_cases c env r)
    as [[_ H]|[(_ & e & _ & H)|(Hb & data & res & tr & Henc & _ & _)]];
    try (rewrite H in Hin; cbn [trace snd] in Hin; contradiction).
  pose proof (run_call_submits c env r data Hb Henc) as Hsub.
  rewrite Hsub in Hin |- *.
  pose proof (sendRaw_refs_unchanged (sendArgsOf c data (userNonce r)) env
                (advanceCache r c)) as Hframe.
  destruct (sign_event_prepared _ _ _ _ Hin) as (p & pre & rest & Hprep & Heq).
  destruct Hprep as (Hw & Ha & gp & gl & t1 & t2 & Hgp & Hgl & Htx & Hpre & _).
  destruct (sendArgsOf_fields c data (userNonce r))
    as (Fd & Fn & Fg & Ff & Ft).
  unfold resolveGasParams in Hgp. rewrite Ff in Hgp.
  unfold resolveGasLimit in Hgl. rewrite Fg, Fd in Hgl.
  destruct (getCurrentGasPrices_total env (advanceCache r c)) as (gp' & Hgp').
  rewrite Hgp' in Hgp. injection Hgp as -> <-.
  assert (Ha' : is_empty (userAddress r) = false) by exact Ha.
  assert (Ht2 : t2 = [EvEstimateGas (userAddress r) (GAME_CONTRACT_ADDRESS env)
                                    data]).
  { destruct (publicClient_estimateGas env (userAddress (advanceCache r c))
                (GAME_CONTRACT_ADDRESS env) data) as [g|e] eqn:Hest.
    - rewrite (estimateGas_returned data env (advanceCache r c) g Ha Hest) in Hgl.
      injection Hgl as _ <-. reflexivity.
    - rewrite (estimateGas_threw data env (advanceCache r c) e Ha Hest) in Hgl.
      injection Hgl as _ <-. reflexivity. }
  exists data, p, gp, gl, rest.
  split; [exact Henc|]. split; [exact Hframe|]. split; [exact Ha'|].
  split; [exact Hw|]. split; [exact Hgp'|].
  split; [rewrite Hgl; reflexivity|].
  split.
  - rewrite Htx. unfold signedFields. rewrite Fd, Fn. reflexivity.
  - rewrite Heq, Hpre, Ht2. reflexivity.
Qed.

(** X9. Whatever initializeGameTransaction or playNewMoveTransaction
    signs is addressed to the game contract from the cached address,
    carries the encoded call and the nonce that was cached before the
    call, and is signed only after the node was asked for the latest
    block and for an estimate for that very call. *)
Theorem domain_call_signs_cached_state c env r fields :
  In (EvSignTransaction fields) (trace (run_call c env r)) ->
  exists data rest,
    encodeCall env c = Returned data /\
    tx_to fields = GAME_CONTRACT_ADDRESS env /\
    tx_account fields = userAddress r /\
    tx_data fields = data /\
    tx_nonce fields = userNonce r /\
    trace (run_call c env r)
      = EvGetBlock
        :: EvEstimateGas (userAddress r) (GAME_CONTRACT_ADDRESS env) data
        :: EvSignTransaction fields :: rest.
Proof.
  intros Hin.
  destruct (domain_sign_event c env r fields Hin)
    as (data & p & gp & gl & rest & Henc & _ & _ & _ & _ & _ & -> & Htr).
  exists data, rest. repeat split; assumption.
Qed.

Lemma domain_call_signs_cached_state_witness :
  exists data rest,
    encodeCall healthy_env sample_move = Returned data /\
    "0x2048" = GAME_CONTRACT_ADDRESS healthy_env /\
    "0x1111" = userAddress sample_refs /\
    "0xbb02" = data /\
    7 = userNonce sample_refs /\
    trace (run_call sample_move healthy_env sample_refs)
      = EvGetBlock
        :: EvEstimateGas (userAddress sample_refs)
                         (GAME_CONTRACT_ADDRESS healthy_env) data
        :: EvSignTransaction
             (mkTx "0x2048" "0x1111" "0xbb02" 7 114518 6000000000 1000000000)
        :: rest.
Proof.
  apply (domain_call_signs_cached_state sample_move healthy_env sample_refs
           (mkTx "0x2048" "0x1111" "0xbb02" 7 114518 6000000000 1000000000)).
  vm_compute. do 2 right. left. reflexivity.
Defined.

(** X10. The transaction a domain operation signs after reading the
    block carries a fee cap of twice the base fee in use and a tip of
    1 gwei, so its cap is above its tip exactly when that base fee
    exceeds 0.5 gwei. *)
Theorem domain_call_fee_order c env r block fields :
  publicClient_getBlock env = Returned block ->
  In (EvSignTransaction fields) (trace (run_call c env r)) ->
  tx_maxFeePerGas fields = bigint_or (baseFeePerGas block) 1000000000 * 2 /\
  tx_maxPriorityFeePerGas fields = 1000000000 /\
  (tx_maxFeePerGas fields > tx_maxPriorityFeePerGas fields <->
   bigint_or (baseFeePerGas block) 1000000000 > 500000000).
Proof.
  intros Hb Hin.
  destruct (domain_sign_event c env r fields Hin)
    as (data & p & gp & gl & rest & _ & _ & _ & _ & Hgp & _ & -> & _).
  rewrite (getCurrentGasPrices_returned env _ block Hb) in Hgp.
  injection Hgp as <-.
  cbn [tx_maxFeePerGas tx_maxPriorityFeePerGas maxFeePerGas
       maxPriorityFeePerGas].
  change (parseGwei 1 0) with 1000000000.
  split; [reflexivity|]. split; [reflexivity|]. lia.
Qed.

Lemma domain_call_fee_order_witness :
  2000000 = bigint_or (Some 1000000) 1000000000 * 2 /\
  1000000000 = 1000000000 /\
  (2000000 > 1000000000 <-> bigint_or (Some 1000000) 1000000000 > 500000000).
Proof.
  apply (domain_call_fee_order sample_start env_low_base_fee sample_refs
           (mkBlock (Some 1000000))
           (mkTx "0x2048" "0x1111" "0xaa01" 7 114518 2000000 1000000000)).
  - reflexivity.
  - vm_compute. do 2 right. left. reflexivity.
Defined.

(** X11. When the call data cannot be encoded the operation throws the
    encoder's error before anything else happens: the cached nonce and
    balance are not advanced, and no toast tells the user. *)
Theorem encoding_failure_is_silent c env r e :
  parseEther 1 2 <= userBalance r ->
  encodeCall env c = Threw e ->
  run_call c env r = (Threw e, r, []).
Proof.
  intros Hbal Henc.
  assert (Hb : below_minimum (userBalance r) = false).
  { rewrite below_minimum_spec. apply Z.ltb_ge.
    change (parseEther 1 2) with (10 ^ 16) in Hbal. exact Hbal. }
  destruct (run_call_cases c env r)
    as [[Hb' _]|[(_ & e' & He' & H)|(_ & data & res & tr & He' & _)]];
    try congruence.
Qed.

Lemma encoding_failure_is_silent_witness :
  run_call sample_start env_encoder_fails sample_refs
    = (Threw (mkError "Size of bytes does not match."), sample_refs, []).
Proof.
  apply (encoding_failure_is_silent sample_start env_encoder_fails sample_refs).
  - vm_compute. discriminate.
  - reflexivity.
Defined.

(** X12. An operation either leaves the cache as it was or, having found
    at least 0.01 units cached, takes exactly its estimated cost off the
    balance; so the cached balance never grows, and a non-negative
    cached balance never becomes negative. *)
Theorem cached_balance_stays_non_negative c env r :
  0 <= userBalance r ->
  (refs_after (run_call c env r) = r \/
   (parseEther 1 2 <= userBalance r /\
    refs_after (run_call c env r) = advanceCache r c)) /\
  0 <= userBalance (refs_after (run_call c env r)) <= userBalance r.
Proof.
  intros Hpos.
  destruct (run_call_cases c env r)
    as [[_ H]|[(_ & e & _ & H)|(Hb & data & res & tr & _ & H & _)]];
    rewrite H; cbn [refs_after fst snd].
  - split; [left; reflexivity | lia].
  - split; [left; reflexivity | lia].
  - rewrite below_minimum_spec in Hb. apply Z.ltb_ge in Hb.
    change (parseEther 1 2) with (10 ^ 16).
    split; [right; split; [exact Hb | reflexivity]|].
    cbn [advanceCache userBalance].
    destruct c; cbn [estimatedCost];
      [change (parseEther 75 4) with 7500000000000000
      |change (parseEther 5 3) with 5000000000000000]; lia.
Qed.

Lemma cached_balance_stays_non_negative_witness :
  0 <= userBalance (refs_after (run_call sample_start env_reverted sample_refs))
    <= userBalance sample_refs.
Proof.
  apply (cached_balance_stays_non_negative sample_start env_reverted
           sample_refs).
  vm_compute. discriminate.
Defined.

(** X13. Two operations in a row sign consecutive nonces, whatever came
    of the first one once it had signed: even when its signature,
    submission or confirmation failed, the next transaction is signed
    with the following nonce. *)
Theorem next_call_signs_next_nonce c1 c2 env1 env2 r fields1 fields2 :
  0 <= userNonce r < 2 ^ 53 ->
  In (EvSignTransaction fields1) (trace (run_call c1 env1 r)) ->
  In (EvSignTransaction fields2)
     (trace (run_call c2 env2 (refs_after (run_call c1 env1 r)))) ->
  tx_nonce fields1 = userNonce r /\
  tx_nonce fields2 = userNonce r + 1.
Proof.
  intros Hn Hin1 Hin2.
  destruct (domain_sign_event c1 env1 r fields1 Hin1)
    as (d1 & p1 & gp1 & gl1 & rest1 & _ & Hrefs & _ & _ & _ & _ & -> & _).
  rewrite Hrefs in Hin2.
  destruct (domain_sign_event c2 env2 _ fields2 Hin2)
    as (d2 & p2 & gp2 & gl2 & rest2 & _ & _ & _ & _ & _ & _ & -> & _).
  cbn [tx_nonce advanceCache userNonce].
  split; [reflexivity | apply number_add_exact; exact Hn].
Qed.

(** The wallet refuses the first signature; the second call asks it to
    sign nonce 8. *)
Lemma next_call_signs_next_nonce_witness :
  outcome (run_call sample_start healthy_env refusing_refs)
    = Threw (mkError "User rejected the request.") /\
  7 = userNonce refusing_refs /\
  8 = userNonce refusing_refs + 1.
Proof.
  split; [reflexivity|].
  apply (next_call_signs_next_nonce sample_start sample_move
           healthy_env healthy_env refusing_refs
           (mkTx "0x2048" "0x1111" "0xaa01" 7 114518 6000000000 1000000000)
           (mkTx "0x2048" "0x1111" "0xbb02" 8 114518 6000000000 1000000000)).
  - cbn; lia.
  - vm_compute. do 2 right. left. reflexivity.
  - vm_compute. do 2 right. left. reflexivity.
Defined.

(** *** The login effects *)

Lemma sign_event_passed_guard c env r fields :
  In (EvSignTransaction fields) (trace (run_call c env r)) ->
  parseEther 1 2 <= userBalance r.
Proof.
  intros Hin.
  destruct (run_call_cases c env r)
    as [[_ H]|[(_ & e & _ & H)|(Hb & _)]];
    try (rewrite H in Hin; cbn [trace snd] in Hin; contradiction).
  rewrite below_minimum_spec in Hb. apply Z.ltb_ge in Hb. exact Hb.
Qed.

(** X14. resetNonceAndBalance updates the cache all at once or not at
    all: either nonce, balance and address are replaced together by the
    node's answers for one non-empty address, or every ref is as before.
    In particular, when the balance query throws after the transaction
    count was read, the cached nonce is not touched.  The wallet client
    is never changed. *)
Theorem reset_is_all_or_nothing user node r :
  let '(res, r', queries) := resetNonceAndBalance user node r in
  walletClient r' = walletClient r /\
  match res with
  | Threw _ => r' = r /\ queries <> []
  | Returned _ =>
      (r' = r /\ queries = []) \/
      exists address count balance,
        is_empty address = false /\
        getTransactionCount node address = Returned count /\
        getBalance node address = Returned balance /\
        r' = mkRefs count balance address (walletClient r) /\
        queries = [QTransactionCount address; QBalance address]
  end.
Proof.
  unfold resetNonceAndBalance.
  destruct user as [u|]; [|split; [reflexivity | left; split; reflexivity]].
  destruct (filter is_privy_account (linkedAccounts u)) as [|privyUser others];
    [split; [reflexivity | left; split; reflexivity]|].
  destruct (acc_address privyUser) as [address|];
    [|split; [reflexivity | left; split; reflexivity]].
  destruct (is_empty address) eqn:Ha;
    [split; [reflexivity | left; split; reflexivity]|].
  destruct (getTransactionCount node address) as [count|e] eqn:Hc;
    [|split; [reflexivity | split; [reflexivity | discriminate]]].
  destruct (getBalance node address) as [balance|e] eqn:Hbal;
    [|split; [reflexivity | split; [reflexivity | discriminate]]].
  split; [reflexivity|]. right.
  exists address, count, balance. repeat split; assumption.
Qed.

(** The balance query fails: the nonce read just before is dropped. *)
Example reset_drops_nonce_when_balance_fails :
  resetNonceAndBalance (Some sample_user) node_balance_down sample_refs
  = (Threw network_down, sample_refs,
     [QTransactionCount "0x2222"; QBalance "0x2222"]).
Proof. reflexivity. Qed.

(** X15. resetNonceAndBalance looks at one entry of linkedAccounts only,
    the first wallet entry of client type privy: the entries before it
    and all entries after it play no part.  So when that entry has no
    address nothing is fetched, even if a later privy wallet has one. *)
Theorem reset_uses_first_privy_wallet_only u node r before account rest :
  linkedAccounts u = before ++ account :: rest ->
  forallb (fun a => negb (is_privy_account a)) before = true ->
  is_privy_account account = true ->
  resetNonceAndBalance (Some u) node r
    = resetNonceAndBalance (Some (mkUser [account])) node r /\
  (acc_address account = None ->
   resetNonceAndBalance (Some u) node r = (Returned tt, r, [])).
Proof.
  intros Hl Hbefore Hacc.
  assert (Hfilter : filter is_privy_account (linkedAccounts u)
                    = account :: filter is_privy_account rest).
  { rewrite Hl, filter_app.
    assert (Hnil : filter is_privy_account before = []).
    { clear Hl. induction before as [|a l IH]; [reflexivity|].
      cbn [forallb] in Hbefore. apply andb_true_iff in Hbefore as [Ha Hl'].
      cbn [filter]. apply negb_true_iff in Ha. rewrite Ha. exact (IH Hl'). }
    rewrite Hnil. cbn [app filter]. rewrite Hacc. reflexivity. }
  assert (Heq : resetNonceAndBalance (Some u) node r
                = resetNonceAndBalance (Some (mkUser [account])) node r).
  { unfold resetNonceAndBalance. rewrite Hfilter.
    cbn [linkedAccounts filter]. rewrite Hacc. reflexivity. }
  split; [exact Heq|].
  intros Hnone. rewrite Heq. unfold resetNonceAndBalance.
  cbn [linkedAccounts filter]. rewrite Hacc, Hnone. reflexivity.
Qed.

Lemma reset_uses_first_privy_wallet_only_witness :
  resetNonceAndBalance
    (Some (mkUser [email_account; privy_account_no_address; privy_account]))
    sample_node sample_refs
  = (Returned tt, sample_refs, []).
Proof.
  apply (proj2 (reset_uses_first_privy_wallet_only
                  (mkUser [email_account; privy_account_no_address;
                           privy_account])
                  sample_node sample_refs
                  [email_account] privy_account_no_address [privy_account]
                  eq_refl eq_refl eq_refl)).
  reflexivity.
Defined.

(** X16. After a reset that fetched the account, a domain operation signs
    with the transaction count the node reported as its nonce and with
    the fetched address as its account, and it gets as far as signing
    only if the balance the node reported is at least 0.01 units. *)
Theorem reset_feeds_domain_calls user node r r1 queries c env fields :
  resetNonceAndBalance user node r = (Returned tt, r1, queries) ->
  queries <> [] ->
  In (EvSignTransaction fields) (trace (run_call c env r1)) ->
  exists address balance,
    getTransactionCount node address = Returned (tx_nonce fields) /\
    getBalance node address = Returned balance /\
    tx_account fields = address /\
    parseEther 1 2 <= balance.
Proof.
  intros Hreset Hq Hin.
  assert (Hnew : exists address count balance,
             getTransactionCount node address = Returned count /\
             getBalance node address = Returned balance /\
             r1 = mkRefs count balance address (walletClient r)).
  { unfold resetNonceAndBalance in Hreset.
    destruct user as [u|]; [|injection Hreset as _ <-; contradiction].
    destruct (filter is_privy_account (linkedAccounts u)) as [|privyUser others];
      [injection Hreset as _ <-; contradiction|].
    destruct (acc_address privyUser) as [address|];
      [|injection Hreset as _ <-; contradiction].
    destruct (is_empty address);
      [injection Hreset as _ <-; contradiction|].
    destruct (getTransactionCount node address) as [count|e] eqn:Hc;
      [|discriminate Hreset].
    destruct (getBalance node address) as [balance|e] eqn:Hb;
      [|discriminate Hreset].
    injection Hreset as <- _.
    exists address, count, balance. repeat split; assumption. }
  destruct Hnew as (address & count & balance & Hc & Hb & ->).
  pose proof (sign_event_passed_guard c env _ fields Hin) as Hguard.
  destruct (domain_sign_event c env _ fields Hin)
    as (d & p & gp & gl & rest & _ & _ & _ & _ & _ & _ & -> & _).
  cbn [userBalance userAddress userNonce tx_nonce tx_account] in *.
  exists address, balance. repeat split; assumption.
Qed.

Lemma reset_feeds_domain_calls_witness :
  exists address balance,
    getTransactionCount sample_node address = Returned 41 /\
    getBalance sample_node address = Returned balance /\
    "0x2222" = address /\
    parseEther 1 2 <= balance.
Proof.
  apply (reset_feeds_domain_calls (Some sample_user) sample_node sample_refs
           (mkRefs 41 (parseEther 3 2) "0x2222" (Some sample_provider))
           [QTransactionCount "0x2222"; QBalance "0x2222"]
           sample_start healthy_env
           (mkTx "0x2048" "0x2222" "0xaa01" 41 114518 6000000000 1000000000)).
  - reflexivity.
  - discriminate.
  - vm_compute. do 2 right. left. reflexivity.
Defined.

(** X17. getWalletClient changes no ref but the wallet client.  When the
    hook is ready it installs the client created from the provider of
    the first entry of wallets whose client type is privy, whatever the
    entries before and after it; when the hook is not ready, when there
    is no such entry, or when that entry's provider cannot be obtained
    (the error is then thrown), every ref, the client cached before
    among them, stays as it was. *)
Theorem getWalletClient_installs_first_privy_wallet
    (EthereumProvider : Type)
    (createWalletClient : EthereumProvider -> Provider)
    ready wallets r :
  (ready = false \/ wallets = None \/
   (exists ws,
      wallets = Some ws /\
      forallb (fun w => negb (String.eqb (walletClientType w) "privy")) ws
        = true) ->
   getWalletClient createWalletClient ready wallets r = (Returned tt, r)) /\
  (forall before userWallet rest,
     ready = true ->
     wallets = Some (before ++ userWallet :: rest) ->
     forallb (fun w => negb (String.eqb (walletClientType w) "privy")) before
       = true ->
     walletClientType userWallet = "privy" ->
     getWalletClient createWalletClient ready wallets r
     = match getEthereumProvider userWallet with
       | Returned ethereumProvider =>
           (Returned tt,
            mkRefs (userNonce r) (userBalance r) (userAddress r)
                   (Some (createWalletClient ethereumProvider)))
       | Threw e => (Threw e, r)
       end).
Proof.
  assert (Hnone : forall ws : list (ConnectedWallet EthereumProvider),
             forallb (fun w => negb (String.eqb (walletClientType w) "privy"))
                     ws = true ->
             find (fun w => String.eqb (walletClientType w) "privy") ws = None).
  { induction ws as [|w l IH]; [reflexivity|].
    cbn [forallb find]. intros H. apply andb_true_iff in H as [Hw Hl].
    apply negb_true_iff in Hw. rewrite Hw. exact (IH Hl). }
  split.
  - intros [-> | [-> | (ws & -> & Hws)]]; unfold getWalletClient.
    + reflexivity.
    + destruct ready; reflexivity.
    + rewrite (Hnone ws Hws). destruct ready; reflexivity.
  - intros before userWallet rest -> -> Hbefore Hprivy.
    unfold getWalletClient. cbn [negb].
    assert (Hfind : find (fun w => String.eqb (walletClientType w) "privy")
                         (before ++ userWallet :: rest) = Some userWallet).
    { clear Hnone. induction before as [|w l IH].
      - cbn [app find]. rewrite Hprivy. reflexivity.
      - cbn [forallb] in Hbefore. apply andb_true_iff in Hbefore as [Hw Hl].
        apply negb_true_iff in Hw. cbn [app find]. rewrite Hw. exact (IH Hl). }
    rewrite Hfind. reflexivity.
Qed.

Lemma getWalletClient_installs_first_privy_wallet_witness :
  getWalletClient (fun p : Provider => p) true (Some sample_wallets)
                  no_wallet_refs
  = (Returned tt, mkRefs 7 (parseEther 5 2) "" (Some sample_provider)) /\
  getWalletClient (fun p : Provider => p) false (Some sample_wallets)
                  no_wallet_refs
  = (Returned tt, no_wallet_refs).
Proof.
  split.
  - apply (proj2 (getWalletClient_installs_first_privy_wallet
                    Provider (fun p => p) true (Some sample_wallets)
                    no_wallet_refs)
                 [mkWallet "metamask" (Returned refusing_provider)]
                 (mkWallet "privy" (Returned sample_provider)) []);
      reflexivity.
  - apply (proj1 (getWalletClient_installs_first_privy_wallet
                    Provider (fun p => p) false (Some sample_wallets)
                    no_wallet_refs)).
    left. reflexivity.
Defined.

(** The second wallet is the privy one; its client replaces the old. *)
Example getWalletClient_sample :
  getWalletClient (fun p : Provider => p) true (Some sample_wallets)
                  no_wallet_refs
  = (Returned tt, mkRefs 7 (parseEther 5 2) "" (Some sample_provider)).
Proof. reflexivity. Qed.


End V1_More.

(** ** Further properties of the wagmi hook *)

Module V2_More.
Import V2 V2_Proofs V2_Calls.

(** The base fee and gas price in use are never zero: a zero read from
    the node is replaced by the fallback. *)
Lemma networkGas_non_zero publicClient :
  fst (networkGas publicClient) <> 0 /\ snd (networkGas publicClient) <> 0.
Proof.
  assert (Hor : forall x y, y <> 0 -> bigint_or x y <> 0).
  { intros [v|] y Hy; cbn [bigint_or]; [|exact Hy].
    destruct (v =? 0) eqn:E; [exact Hy | apply Z.eqb_neq; exact E]. }
  assert (H1 : parseEther 1 3 <> 0) by (vm_compute; discriminate).
  assert (H2 : parseEther 2 3 <> 0) by (vm_compute; discriminate).
  unfold networkGas, readNetworkGas.
  destruct publicClient as [client|]; cbn [attempt_catch fst snd];
    [|split; apply Hor; assumption].
  destruct (getBlock client) as [block|e]; cbn [attempt_bind attempt_catch fst snd];
    [|split; assumption].
  destruct (getGasPrice client) as [price|e];
    cbn [attempt_bind attempt_catch fst snd];
    [|split; assumption].
  split; apply Hor; assumption.
Qed.

(** X18. With a non-negative base fee from the node the validation step
    of getOptimizedGasConfig never fires: maxFeePerGas is the larger of
    baseFee * 2 + tip and gasPrice + tip, hence at least twice the base
    fee in use plus the tip, and that base fee is positive because a
    zero one is replaced by the fallback. *)
Theorem fee_cap_covers_twice_base_fee publicClient contractAddress
    functionName args account value :
  0 <= fst (networkGas publicClient) ->
  let baseFee := fst (networkGas publicClient) in
  let gasPrice := snd (networkGas publicClient) in
  let cfg := getOptimizedGasConfig publicClient contractAddress functionName
               args account value in
  0 < baseFee /\
  maxFeePerGas cfg
    = Z.max (baseFee * 2 + maxPriorityFeePerGas cfg)
            (gasPrice + maxPriorityFeePerGas cfg) /\
  baseFee * 2 + maxPriorityFeePerGas cfg <= maxFeePerGas cfg.
Proof.
  intros Hpos. cbv zeta. rewrite getOptimizedGasConfig_unfold.
  cbn [maxFeePerGas maxPriorityFeePerGas].
  pose proof (proj1 (networkGas_non_zero publicClient)) as Hnz.
  set (baseFee := fst (networkGas publicClient)) in *.
  set (gasPrice := snd (networkGas publicClient)).
  set (tip := if baseFee <? parseEther 1 3 then parseEther 5 4
              else parseEther 2 3).
  assert (Hb : 0 < baseFee) by lia.
  split; [exact Hb|].
  unfold spec_maxFee.
  assert (Hlt : (tip <? Z.max (baseFee * 2 + tip) (gasPrice + tip)) = true)
    by (apply Z.ltb_lt; lia).
  rewrite Hlt. split; [reflexivity | lia].
Qed.

Lemma fee_cap_covers_twice_base_fee_witness :
  0 < 1200000000 /\
  500002400000000
    = Z.max (1200000000 * 2 + 500000000000000)
            (1500000000 + 500000000000000) /\
  1200000000 * 2 + 500000000000000 <= 500002400000000.
Proof.
  apply (fee_cap_covers_twice_base_fee (Some client_up) "0x2048" "play" [3]
           "0x1111" None).
  vm_compute. discriminate.
Defined.

(** X19. The two node reads share one try block: when there is no
    client, or reading the block throws, or reading the gas price
    throws after the block was read, both fallbacks are used and the
    base fee that may have been read is dropped.  The fees are then
    always a tip of 0.002 and a cap of 0.004 ether-units. *)
Theorem failed_read_discards_both_values publicClient contractAddress
    functionName args account value :
  publicClient = None \/
  (exists client e,
     publicClient = Some client /\
     (getBlock client = Threw e \/ getGasPrice client = Threw e)) ->
  let cfg := getOptimizedGasConfig publicClient contractAddress functionName
               args account value in
  networkGas publicClient = (1000000000000000, 2000000000000000) /\
  maxPriorityFeePerGas cfg = 2000000000000000 /\
  maxFeePerGas cfg = 4000000000000000.
Proof.
  intros Hfail. cbv zeta.
  assert (Hnet : networkGas publicClient
                 = (1000000000000000, 2000000000000000)).
  { unfold networkGas, readNetworkGas.
    destruct Hfail as [-> | (client & e & -> & [Hb | Hp])].
    - reflexivity.
    - rewrite Hb. reflexivity.
    - destruct (getBlock client) as [block|e'];
        cbn [attempt_bind attempt_catch]; [|reflexivity].
      rewrite Hp. reflexivity. }
  rewrite getOptimizedGasConfig_unfold, Hnet.
  split; [reflexivity|]. split; reflexivity.
Qed.

(** A block with a base fee of 7 gwei was read; the price read failed. *)
Lemma failed_read_discards_both_values_witness :
  networkGas (Some client_price_down) = (1000000000000000, 2000000000000000) /\
  maxPriorityFeePerGas
    (getOptimizedGasConfig (Some client_price_down) "0x2048" "play" [3]
                           "0x1111" None) = 2000000000000000 /\
  maxFeePerGas
    (getOptimizedGasConfig (Some client_price_down) "0x2048" "play" [3]
                           "0x1111" None) = 4000000000000000.
Proof.
  apply (failed_read_discards_both_values (Some client_price_down) "0x2048"
           "play" [3] "0x1111" None).
  right. exists client_price_down, (mkError "HTTP request failed.").
  split; [reflexivity | right; reflexivity].
Defined.

(** X20. getOptimizedGasConfig evaluates publicClient.encodeFunctionData
    as an argument of the estimateGas call; when it throws, or when
    there is no client, no estimate is used, whatever the node would
    answer: the gas limit is 150000 for startGame and 100000 for any
    other function. *)
Theorem failed_encoding_gives_fallback_limit publicClient contractAddress
    functionName args account value :
  publicClient = None \/
  (exists client e,
     publicClient = Some client /\
     encodeFunctionData client functionName args = Threw e) ->
  gas (getOptimizedGasConfig publicClient contractAddress functionName args
                             account value)
    = (if String.eqb functionName "startGame" then 150000 else 100000).
Proof.
  intros Hfail.
  assert (Hest : exists e,
             estimateWithBuffer publicClient contractAddress functionName args
                                account value = Threw e).
  { unfold estimateWithBuffer.
    destruct Hfail as [-> | (client & e & -> & Henc)].
    - eexists. reflexivity.
    - rewrite Henc. exists e. reflexivity. }
  destruct Hest as [e Hest].
  rewrite (gasLimitFor_fallback _ _ _ _ _ _ e Hest). reflexivity.
Qed.

(** The node would answer 95432; the limits are the fallbacks. *)
Lemma failed_encoding_gives_fallback_limit_witness :
  estimateGas V2_Clients.client_without_encoder "0x1111" "0x2048" "0xcc03" 0
    = Returned 95432 /\
  gas (getOptimizedGasConfig (Some V2_Clients.client_without_encoder) "0x2048"
                             "startGame" [] "0x1111"
                             (Some 1000000000000000))
    = 150000 /\
  gas (getOptimizedGasConfig (Some V2_Clients.client_without_encoder) "0x2048"
                             "play" [3] "0x1111" None)
    = 100000.
Proof.
  split; [reflexivity|]. split.
  - apply (failed_encoding_gives_fallback_limit
             (Some V2_Clients.client_without_encoder) "0x2048" "startGame" []
             "0x1111" (Some 1000000000000000)).
    right. exists V2_Clients.client_without_encoder. eexists.
    split; reflexivity.
  - apply (failed_encoding_gives_fallback_limit
             (Some V2_Clients.client_without_encoder) "0x2048" "play" [3]
             "0x1111" None).
    right. exists V2_Clients.client_without_encoder. eexists.
    split; reflexivity.
Defined.

(** X21. startGame and playMove end exactly as writeContract ends on the
    request they build, so they throw only the error writeContract
    throws; that request always carries a fee cap above its tip, and
    startGame sends 0.001 units of value while playMove sends none. *)
Theorem callers_pass_ordered_fees publicClient gameContractAddress direction
    account :
  exists start move,
    (forall writeContract,
       startGame publicClient writeContract gameContractAddress account
         = writeContract start) /\
    (forall writeContract,
       playMove publicClient writeContract gameContractAddress direction
                account
         = writeContract move) /\
    w_maxFeePerGas start > w_maxPriorityFeePerGas start /\
    w_maxFeePerGas move > w_maxPriorityFeePerGas move /\
    w_functionName start = "startGame" /\ w_args start = None /\
    w_value start = Some 1000000000000000 /\
    w_functionName move = "play" /\ w_args move = Some [direction] /\
    w_value move = None /\
    w_address start = gameContractAddress /\
    w_address move = gameContractAddress.
Proof.
  set (startConfig := getOptimizedGasConfig publicClient gameContractAddress
                        "startGame" [] account (Some (parseEther 1 3))).
  set (moveConfig := getOptimizedGasConfig publicClient gameContractAddress
                       "play" [direction] account None).
  exists (mkWrite gameContractAddress "startGame" None (Some (parseEther 1 3))
                  (gas startConfig) (maxFeePerGas startConfig)
                  (maxPriorityFeePerGas startConfig)),
         (mkWrite gameContractAddress "play" (Some [direction]) None
                  (gas moveConfig) (maxFeePerGas moveConfig)
                  (maxPriorityFeePerGas moveConfig)).
  split.
  { intros wc. unfold startGame. cbv zeta. fold startConfig.
    destruct (wc _) as [[]|e]; reflexivity. }
  split.
  { intros wc. unfold playMove. cbv zeta. fold moveConfig.
    destruct (wc _) as [[]|e]; reflexivity. }
  cbn [w_maxFeePerGas w_maxPriorityFeePerGas w_functionName w_args w_value
       w_address].
  split; [apply getOptimizedGasConfig_fee_order|].
  split; [apply getOptimizedGasConfig_fee_order|].
  repeat split.
Qed.

(** The wallet rejects: startGame throws that very error. *)
Example startGame_rethrows :
  startGame (Some client_up) wallet_rejects "0x2048" "0x1111"
  = Threw (mkError "User rejected the request.").
Proof. reflexivity. Qed.

End V2_More.

(** ** Submission with arbitrary thrown values *)

Module V1_Thrown_Proofs.
Import V1_Thrown.







(** What the [catch] block and the final [if (e) throw e] make of the way
    the [try] block was left. *)
Lemma sendRaw_after_try a env r :
  sendRawTransactionAndConfirm a env r
  = match send_try a env r with
    | (Normal _, t) => (Normal tt, t)
    | (Abrupt v, t) =>
        match js_message v with
        | None => (Abrupt (JsError (messageTypeError v)), t)
        | Some m =>
            (if js_truthy v then Abrupt v else Normal tt,
             t ++ [V1.EvToastError
                     (String.append "Error: " (js_interpolate m))])
        end
    end.
Proof.
  unfold sendRawTransactionAndConfirm, failureDescription.
  cbv [bind ret throw emit try_catch].
  destruct (send_try a env r) as [[u|v] t].
  - cbn [js_truthy]. rewrite !app_nil_r. reflexivity.
  - destruct v as [e| | |b|n|s]; cbn [js_message js_truthy];
      rewrite ?app_nil_r; try reflexivity.
    + destruct b; rewrite ?app_nil_r; reflexivity.
    + destruct (negb (n =? 0)); rewrite ?app_nil_r; reflexivity.
    + destruct (negb (V1.is_empty s)); rewrite ?app_nil_r; reflexivity.
Qed.








(** *** Agreement with the [V1] model *)

Lemma of_getCurrentGasPrices env r gp :
  V1.getCurrentGasPrices env r = (Returned gp, r, [V1.EvGetBlock]) ->
  getCurrentGasPrices (of_env env) (of_refs r) = (Normal gp, [V1.EvGetBlock]).
Proof.
  unfold V1.getCurrentGasPrices, getCurrentGasPrices.
  cbv [V1.try_catch V1.bind V1.await V1.ret try_catch bind await ret
       of_env publicClient_getBlock].
  destruct (V1.publicClient_getBlock env) as [b|e]; cbn [of_attempt app];
    intros H; injection H as <-; reflexivity.
Qed.

Lemma of_estimateGas data env r :
  estimateGas data (of_env env) (of_refs r)
  = (of_attempt (V1.outcome (V1.estimateGas data env r)),
     V1.trace (V1.estimateGas data env r)).
Proof.
  unfold V1.estimateGas, estimateGas.
  cbv [V1.try_catch V1.bind V1.await V1.ret V1.ask V1.get V1.throw
       try_catch bind await ret ask get throw of_env of_refs
       userAddress GAME_CONTRACT_ADDRESS publicClient_estimateGas].
  destruct (V1.is_empty (V1.userAddress r)); [reflexivity|].
  destruct (V1.publicClient_estimateGas env (V1.userAddress r)
              (V1.GAME_CONTRACT_ADDRESS env) data) as [g|e];
    reflexivity.
Qed.

Lemma of_resolveGasParams a env r gp t :
  V1.resolveGasParams a env r = (Returned gp, r, t) ->
  resolveGasParams a (of_env env) (of_refs r) = (Normal gp, t).
Proof.
  unfold V1.resolveGasParams, resolveGasParams.
  destruct (V1_Proofs.getCurrentGasPrices_total env r) as [gp' Hgp'].
  pose proof (of_getCurrentGasPrices env r gp' Hgp') as Hraw.
  destruct (V1.arg_maxFeePerGas a) as [fee|],
           (V1.arg_maxPriorityFeePerGas a) as [tip|];
    try (rewrite Hgp', Hraw; intros H; injection H as <- <-; reflexivity).
  destruct (negb (fee =? 0) && negb (tip =? 0)).
  - intros H. injection H as <- <-. reflexivity.
  - rewrite Hgp', Hraw. intros H. injection H as <- <-. reflexivity.
Qed.

Lemma of_resolveGasLimit a env r g t :
  V1.resolveGasLimit a env r = (Returned g, r, t) ->
  resolveGasLimit a (of_env env) (of_refs r) = (Normal g, t).
Proof.
  unfold V1.resolveGasLimit, resolveGasLimit.
  pose proof (of_estimateGas (V1.data a) env r) as Hraw.
  destruct (V1.gas a) as [g0|]; [destruct (g0 =? 0)|];
    try (intros H; rewrite Hraw, H; reflexivity).
  intros H. injection H as <- <-. reflexivity.
Qed.

(** On collaborators that reject with [Error] objects only, this model
    and [V1] run alike: the same outcome and the same trace. *)
Lemma agrees_with_V1 a env r :
  sendRawTransactionAndConfirm a (of_env env) (of_refs r)
  = (of_attempt (V1.outcome (V1.sendRawTransactionAndConfirm a env r)),
     V1.trace (V1.sendRawTransactionAndConfirm a env r)).
Proof.
  destruct (V1_Proofs.sendRaw_run a env r) as (res & tr & Hrun & Hpath).
  rewrite Hrun. cbn [V1.outcome V1.trace fst snd].
  rewrite sendRaw_after_try. unfold send_try.
  unfold bind at 1. unfold get at 1.
  destruct Hpath as
    [ Hw | p Hw Ha | p tx pre e Hprep Hs | p tx pre s e Hprep Hs Hp
    | p tx pre s resp err' Hprep Hs Hp He
    | p tx pre s resp e Hprep Hs Hp He Hr
    | p tx pre s resp rc Hprep Hs Hp He Hr Hst
    | p tx pre s resp rc Hprep Hs Hp He Hr Hst ].
  1: { cbn [of_refs walletClient]. rewrite Hw. reflexivity. }
  1: { cbn [of_refs walletClient userAddress]. rewrite Hw, Ha. reflexivity. }
  all: destruct Hprep as (Hw & Ha & gp & gl & t1 & t2 & Hgp & Hgl & -> & -> & _);
    cbn [of_refs walletClient userAddress option_map]; rewrite Hw, Ha;
    cbn [option_map];
    unfold bind at 1; rewrite (of_resolveGasParams a env r gp t1 Hgp);
    unfold bind at 1; rewrite (of_resolveGasLimit a env r gl t2 Hgl);
    unfold bind at 1; unfold ask at 1;
    unfold bind at 1; unfold await at 1;
    cbn [of_provider signTransaction of_env GAME_CONTRACT_ADDRESS];
    fold (V1.signedFields env r a gp gl); rewrite Hs; cbn [of_attempt].
  1: { cbn [js_message js_truthy js_interpolate].
       cbv [V1.failureToast]. rewrite <- !app_assoc. reflexivity. }
  all: unfold bind at 1; unfold await at 1;
    unfold V1.rawTransactionRequest, V1.rpcUrl in Hp;
    cbv [post of_env rpcUrl hostname]; rewrite Hp; cbn [of_attempt].
  1: { cbn [js_message js_truthy js_interpolate].
       cbv [V1.failureToast]. rewrite <- !app_assoc. reflexivity. }
  all: rewrite He.
  1: { cbv [throw]. cbn [js_message js_truthy js_interpolate].
       cbv [V1.failureToast]. rewrite ?app_nil_r, <- !app_assoc. reflexivity. }
  all: unfold bind at 1; unfold emit at 1;
    unfold bind at 1; unfold await at 1;
    cbv [waitForTransactionReceipt]; rewrite Hr; cbn [of_attempt].
  1: { cbn [js_message js_truthy js_interpolate].
       cbv [V1.failureToast]. rewrite <- !app_assoc. reflexivity. }
  all: rewrite Hst; cbv [throw emit];
    cbn [js_message js_truthy js_interpolate];
    cbv [V1.failureToast V1.revertedError];
    rewrite ?app_nil_r, <- !app_assoc; reflexivity.
Qed.

End V1_Thrown_Proofs.
